(** * phase9_runner: time-decayed aggregation of application outcomes

    A shallow embedding of [phase9_runner.py].  Floating-point numbers are
    idealised as real numbers; a pandas column is a list of cells; a Python
    dict is an association list in insertion order; exceptions are an error
    result; the file system is an explicit state. *)

From Stdlib Require Import Reals Lra Lia ZArith List String Ascii Bool Permutation Sorted.
Import ListNotations.

Open Scope string_scope.
Open Scope R_scope.

(** ** Values of a numeric column

    A cell of [days_since_apply] is either Python's [None] (object column),
    the float NaN, or a number. *)
Inductive num : Type :=
  | PyNone
  | NaN
  | Num (r : R).

(** ** Constants (lines 49-73) *)

Definition HALF_LIFE_DAYS : R := 60.
Definition LAMBDA : R := ln 2 / HALF_LIFE_DAYS.

Definition STAGE_SCORES : list (string * Z) :=
  [ ("Auto_Rejected", 0%Z); ("Rejected_No_Response", 0%Z);
    ("Recruiter_Screen", 1%Z); ("Hiring_Manager", 2%Z);
    ("Final_Round", 3%Z); ("Offer", 4%Z) ].

Definition FAILURE_MODES : list string :=
  [ "ELIGIBILITY_GATE"; "ATS_PACKAGING"; "DOMAIN_MISMATCH"; "TOOLING_GAP";
    "SENIORITY_MISMATCH"; "WEAK_EVIDENCE"; "EXTERNAL_NOISE"; "UNKNOWN" ].

(** ** Decay model (lines 76-83)

    Over the reals [exp] never reaches 0, while [math.exp] underflows to
    0.0 from about 64,600 days on and is constant within rounding; nothing
    below relies on a weight being strictly positive or strictly
    decreasing. *)

Definition compute_weight (days_since_apply : num) : R :=
  match days_since_apply with
  | PyNone => 0
  | NaN => 0
  | Num d => if Rlt_dec d 0 then 1 else exp (- LAMBDA * d)
  end.

(** ** Text helpers

    [strip] is Python's [str.strip()] on ASCII text: it removes the white
    space characters (codes 9-13, 28-32) at both ends. *)

Definition is_space (c : ascii) : bool :=
  let n := nat_of_ascii c in
  ((9 <=? n) && (n <=? 13) || (28 <=? n) && (n <=? 32))%nat.

Fixpoint lstrip (s : string) : string :=
  match s with
  | EmptyString => EmptyString
  | String c t => if is_space c then lstrip t else s
  end.

Fixpoint rstrip (s : string) : string :=
  match s with
  | EmptyString => EmptyString
  | String c t =>
      match rstrip t with
      | EmptyString => if is_space c then EmptyString else String c EmptyString
      | t' => String c t'
      end
  end.

Definition strip (s : string) : string := rstrip (lstrip s).

Definition in_list (x : string) (l : list string) : bool :=
  existsb (String.eqb x) l.

(** ** The raw table

    [pd.read_csv(path, dtype=str)] yields a frame whose cells are text or
    missing (NaN).  Every row has one cell per column. *)

Inductive cell : Type :=
  | NA
  | Str (s : string).

Record DataFrame : Type := {
  columns : list string;
  rows : list (list cell)
}.

Definition isnull (c : cell) : bool :=
  match c with NA => true | Str _ => false end.

(** [str(x)] of a cell: the missing value prints as [nan]. *)
Definition py_str (c : cell) : string :=
  match c with NA => "nan" | Str s => s end.

(** [fillna(v)] on a text column: the cell's text, or [v] where it is missing. *)
Definition fillna (v : string) (c : cell) : string :=
  match c with NA => v | Str s => s end.

Definition cell_eqb (a b : cell) : bool :=
  match a, b with
  | NA, NA => false  (* NaN compares unequal to everything *)
  | Str s, Str t => String.eqb s t
  | _, _ => false
  end.

(** Element-wise [+] of text columns: a missing operand gives a missing result. *)
Definition cell_add (a b : cell) : cell :=
  match a, b with
  | Str s, Str t => Str (s ++ t)
  | _, _ => NA
  end.

Fixpoint index_of (name : string) (cols : list string) : option nat :=
  match cols with
  | [] => None
  | c :: t => if String.eqb c name then Some O
              else option_map S (index_of name t)
  end.

(** [name in df.columns] *)
Definition has_column (df : DataFrame) (name : string) : bool :=
  in_list name (columns df).

(** [df.get(name)]: the column, or [None] when there is no such column. *)
Definition df_get (df : DataFrame) (name : string) : option (list cell) :=
  match index_of name (columns df) with
  | Some i => Some (map (fun r => nth i r NA) (rows df))
  | None => None
  end.

(** [len(df)] *)
Definition df_len (df : DataFrame) : nat := List.length (rows df).


(** Line 105: [df.columns = [col.strip() for col in df.columns]] *)
Definition strip_columns (df : DataFrame) : DataFrame :=
  {| columns := map strip (columns df); rows := rows df |}.

Fixpoint zip_with {A B C : Type} (f : A -> B -> C) (l1 : list A) (l2 : list B) : list C :=
  match l1, l2 with
  | a :: t1, b :: t2 => f a b :: zip_with f t1 t2
  | _, _ => []
  end.

(** ** Dates

    A [datetime.date] and the two operations the program uses on it: the
    day number behind date subtraction, and [isoformat()]. *)

Record date : Type := { year : Z; month : Z; day : Z }.

Definition is_leap (y : Z) : bool :=
  ((y mod 4 =? 0) && (negb (y mod 100 =? 0) || (y mod 400 =? 0)))%Z.

Definition days_before_year (y : Z) : Z :=
  let p := (y - 1)%Z in (p * 365 + p / 4 - p / 100 + p / 400)%Z.

Definition days_in_month (y m : Z) : Z :=
  (if m =? 2 then (if is_leap y then 29 else 28)
   else if (m =? 4) || (m =? 6) || (m =? 9) || (m =? 11) then 30 else 31)%Z.

Fixpoint days_before_month_aux (y : Z) (m : nat) : Z :=
  match m with
  | O => 0%Z
  | S k => (days_before_month_aux y k + days_in_month y (Z.of_nat (S k)))%Z
  end.

Definition days_before_month (y m : Z) : Z :=
  days_before_month_aux y (Z.to_nat (m - 1)).

Definition toordinal (d : date) : Z :=
  (days_before_year (year d) + days_before_month (year d) (month d) + day d)%Z.

Definition digit (n : Z) : ascii := ascii_of_nat (48 + Z.to_nat (n mod 10)).

Definition dec2 (n : Z) : string :=
  String (digit (n / 10)) (String (digit n) EmptyString).

Definition dec4 (n : Z) : string :=
  String (digit (n / 1000)) (String (digit (n / 100)) (dec2 n)).

(** [d.isoformat()], the text YYYY-MM-DD. *)
Definition isoformat (d : date) : string :=
  dec4 (year d) ++ "-" ++ dec2 (month d) ++ "-" ++ dec2 (day d).

(** The plain YYYY-MM-DD reading of [fromisoformat], used to run the
    program on concrete tables. *)

Definition digit_val (c : ascii) : option Z :=
  let n := nat_of_ascii c in
  if ((48 <=? n) && (n <=? 57))%nat then Some (Z.of_nat (n - 48)) else None.

Fixpoint digits_val (s : string) (acc : Z) : option Z :=
  match s with
  | EmptyString => Some acc
  | String c t =>
      match digit_val c with
      | Some v => digits_val t (acc * 10 + v)%Z
      | None => None
      end
  end.

Definition iso_date (s : string) : option date :=
  if negb (String.length s =? 10)%nat then None else
  if negb (String.eqb (substring 4 1 s) "-" && String.eqb (substring 7 1 s) "-") then None else
  match digits_val (substring 0 4 s) 0, digits_val (substring 5 2 s) 0,
        digits_val (substring 8 2 s) 0 with
  | Some y, Some m, Some d =>
      if ((1 <=? y) && (1 <=? m) && (m <=? 12) && (1 <=? d) && (d <=? days_in_month y m))%Z
      then Some {| year := y; month := m; day := d |}
      else None
  | _, _, _ => None
  end.

(** A reader of unsigned decimal integers, used to run [pd.to_numeric] on
    concrete tables. *)
Definition int_literal (s : string) : option R :=
  match s with
  | EmptyString => None
  | _ => option_map IZR (digits_val s 0)
  end.

(** ** Exceptions and results *)

Inductive exn : Type :=
  | AttributeError      (* calling [.apply] on [None], line 110 *)
  | TypeError           (* comparing a text with a number, line 220 *)
  | FileNotFoundError
  | FileExistsError
  | IsADirectoryError
  | NotADirectoryError.

Inductive result (A : Type) : Type :=
  | Ok (a : A)
  | Err (e : exn).
Arguments Ok {A} a.
Arguments Err {A} e.

Definition bind {A B : Type} (r : result A) (k : A -> result B) : result B :=
  match r with
  | Ok a => k a
  | Err e => Err e
  end.

Notation "x <- r ;; k" := (bind r (fun x => k))
  (at level 61, r at next level, right associativity).

(** ** Sums over a column, and Python's dict *)

Definition sum (l : list R) : R := fold_right Rplus 0 l.

(** [Series.sum()] skips missing entries (skipna). *)
Fixpoint nansum (l : list num) : R :=
  match l with
  | [] => 0
  | Num r :: t => r + nansum t
  | _ :: t => nansum t
  end.

(** Element-wise product of the elapsed-time column with a weight: a missing
    elapsed time gives a missing product. *)
Definition num_mul (d : num) (w : R) : num :=
  match d with
  | Num r => Num (r * w)
  | _ => NaN
  end.

(** [d[k] = v] on a dict kept in insertion order. *)
Fixpoint dict_set {V : Type} (d : list (string * V)) (k : string) (v : V) : list (string * V) :=
  match d with
  | [] => [(k, v)]
  | (k', v') :: t => if String.eqb k' k then (k, v) :: t else (k', v') :: dict_set t k v
  end.

(** ** Sorting, for [groupby] (keys in increasing order) and [np.median] *)

Fixpoint insert_key (k : string) (l : list string) : list string :=
  match l with
  | [] => [k]
  | h :: t => if String.leb k h then k :: l else h :: insert_key k t
  end.

Definition sort_keys (l : list string) : list string :=
  fold_right insert_key [] l.

Fixpoint insert_R (x : R) (l : list R) : list R :=
  match l with
  | [] => [x]
  | h :: t => if Rle_dec x h then x :: l else h :: insert_R x t
  end.

Definition sort_R (l : list R) : list R := fold_right insert_R [] l.

(** [np.median]: the middle of the sorted values, or the mean of the two
    middle ones. *)
Definition median (l : list R) : R :=
  let s := sort_R l in
  let n := List.length s in
  if Nat.even n then (nth (n / 2 - 1) s 0 + nth (n / 2) s 0) / 2
  else nth (n / 2) s 0.

(** ** The normalized table *)

Record NRow : Type := {
  days_since_apply : num;
  weight : R;
  stage_score : Z;
  failure_mode : string;
  config_id : string;
  cluster : cell;
  ats_system : string
}.

(** What normalization guarantees of a row: a weight in [0, 1], a stage
    score from 0 to 4 and a failure mode of the fixed vocabulary. *)
Definition well_formed (r : NRow) : Prop :=
  0 <= weight r <= 1 /\
  (0 <= stage_score r <= 4)%Z /\
  In (failure_mode r) FAILURE_MODES.

(** [Series.apply] chooses the type of its result from the values: numbers
    mixed with [None] become a float column where [None] is NaN, and a
    column of nothing but [None] stays a column of [None]. *)
Definition is_none {A : Type} (o : option A) : bool :=
  match o with None => true | Some _ => false end.

Definition series_of_results (res : list (option Z)) : list num :=
  if forallb is_none res then map (fun _ => PyNone) res
  else map (fun o => match o with Some z => Num (IZR z) | None => NaN end) res.

Fixpoint stage_lookup (tbl : list (string * Z)) (s : string) (default : Z) : Z :=
  match tbl with
  | [] => default
  | (k, v) :: t => if String.eqb k s then v else stage_lookup t s default
  end.

Definition coerce_failure_mode (c : cell) : string :=
  match c with
  | Str s => if in_list s FAILURE_MODES then s else "UNKNOWN"
  | NA => "UNKNOWN"
  end.

(** The frame as a list of rows, one per index. *)
Definition assemble (n : nat) (days : list num) (weights : list R) (stages : list Z)
    (fms cfgs : list string) (cls : list cell) (atss : list string) : list NRow :=
  map (fun i =>
         {| days_since_apply := nth i days NaN;
            weight := nth i weights 0;
            stage_score := nth i stages 0%Z;
            failure_mode := nth i fms "UNKNOWN";
            config_id := nth i cfgs "unknown";
            cluster := nth i cls NA;
            ats_system := nth i atss "UNKNOWN" |})
      (seq 0 n).

(** [df.groupby(key)]: one group per distinct non-missing key, keys in
    increasing order, each group holding its rows in table order. *)
Fixpoint present_keys (l : list cell) : list string :=
  match l with
  | [] => []
  | NA :: t => present_keys t
  | Str s :: t => s :: present_keys t
  end.

Definition group_keys (key : NRow -> cell) (df : list NRow) : list string :=
  sort_keys (nodup string_dec (present_keys (map key df))).

Definition group_of (key : NRow -> cell) (df : list NRow) (k : string) : list NRow :=
  filter (fun r => cell_eqb (key r) (Str k)) df.

Definition groupby (key : NRow -> cell) (df : list NRow) : list (string * list NRow) :=
  map (fun k => (k, group_of key df k)) (group_keys key df).

(** [df.empty] *)
Definition df_empty (df : list NRow) : bool :=
  match df with [] => true | _ => false end.

Definition total_weight (group : list NRow) : R := sum (map weight group).

Definition recruiter_weight (group : list NRow) : R :=
  sum (map weight (filter (fun r => (1 <=? stage_score r)%Z) group)).

Definition stage_weight_sum (group : list NRow) : R :=
  sum (map (fun r => IZR (stage_score r) * weight r) group).

Definition days_weight_sum (group : list NRow) : R :=
  nansum (map (fun r => num_mul (days_since_apply r) (weight r)) group).

(** ** Per-configuration rollup (lines 144-175) *)

Record ConfigMetrics : Type := {
  recruiter_screen_rate : R;
  funnel_depth : R;
  average_rejection_speed : R;
  num_applications : nat;
  is_baseline : bool
}.

Definition set_is_baseline (m : ConfigMetrics) (b : bool) : ConfigMetrics :=
  {| recruiter_screen_rate := recruiter_screen_rate m;
     funnel_depth := funnel_depth m;
     average_rejection_speed := average_rejection_speed m;
     num_applications := num_applications m;
     is_baseline := b |}.

(** The entry written for one group (lines 154-165). *)
Definition config_entry (group : list NRow) : ConfigMetrics :=
  let tw := total_weight group in
  {| recruiter_screen_rate := recruiter_weight group / tw;
     funnel_depth := stage_weight_sum group / tw;
     average_rejection_speed := days_weight_sum group / tw;
     num_applications := List.length group;
     is_baseline := false |}.

(** The loop of lines 150-165: a group of total weight [<= 0] is skipped. *)
Definition config_loop (groups : list (string * list NRow)) : list (string * ConfigMetrics) :=
  fold_left
    (fun config_metrics g =>
       let '(config_id, group) := g in
       if Rle_dec (total_weight group) 0 then config_metrics
       else dict_set config_metrics config_id (config_entry group))
    groups [].

(** [total_weight > 0], the groups the loops keep. *)
Definition positive (x : R) : bool := if Rle_dec x 0 then false else true.

(** [rate >= median_rate] *)
Definition Rgeb (a b : R) : bool := if Rle_dec b a then true else false.

(** Lines 168-173. *)
Definition classify_baselines (config_metrics : list (string * ConfigMetrics))
  : list (string * ConfigMetrics) :=
  match config_metrics with
  | [] => []
  | _ =>
      let rates := map (fun e => recruiter_screen_rate (snd e)) config_metrics in
      let median_rate := median rates in
      map (fun e => (fst e, set_is_baseline (snd e)
                              (Rgeb (recruiter_screen_rate (snd e)) median_rate)))
          config_metrics
  end.

Definition compute_config_metrics (df : list NRow) : list (string * ConfigMetrics) :=
  if df_empty df then []
  else classify_baselines (config_loop (groupby (fun r => Str (config_id r)) df)).

(** ** Per-cluster rollup (lines 178-198) *)

Record ClusterMetrics : Type := {
  cl_recruiter_screen_rate : R;
  cl_funnel_depth : R;
  cl_cluster_yield : R;
  cl_num_applications : nat
}.

Definition cluster_entry (group : list NRow) : ClusterMetrics :=
  let tw := total_weight group in
  let recruiter_rate := recruiter_weight group / tw in
  let depth := stage_weight_sum group / tw in
  let normalized_depth := depth / 4 in
  {| cl_recruiter_screen_rate := recruiter_rate;
     cl_funnel_depth := depth;
     cl_cluster_yield := 0.6 * recruiter_rate + 0.4 * normalized_depth;
     cl_num_applications := List.length group |}.

Definition cluster_loop (groups : list (string * list NRow)) : list (string * ClusterMetrics) :=
  fold_left
    (fun cluster_metrics g =>
       let '(cl, group) := g in
       if Rle_dec (total_weight group) 0 then cluster_metrics
       else dict_set cluster_metrics cl (cluster_entry group))
    groups [].

Definition compute_cluster_metrics (df : list NRow) : list (string * ClusterMetrics) :=
  if df_empty df then []
  else cluster_loop (groupby cluster df).

(** ** Failure modes per tracking system (lines 201-214) *)

Definition mode_weight (group : list NRow) (mode : string) : R :=
  sum (map weight (filter (fun r => String.eqb (failure_mode r) mode) group)).

Definition fail_freq (group : list NRow) : list (string * R) :=
  let tw := total_weight group in
  fold_left
    (fun ff mode =>
       let w_sum := mode_weight group mode in
       let freq := if Rlt_dec 0 tw then w_sum / tw else 0 in
       dict_set ff mode freq)
    FAILURE_MODES [].

Definition compute_ats_patterns (df : list NRow) : list (string * list (string * R)) :=
  if df_empty df then []
  else fold_left
         (fun ats_patterns g =>
            let '(ats, group) := g in dict_set ats_patterns ats (fail_freq group))
         (groupby (fun r => Str (ats_system r)) df) [].

(** ** Market-wide rollup (lines 217-237) *)

(** What [Series.sum()] returns: a float, or a text for a str column. *)
Inductive pyval : Type :=
  | PyFloat (r : R)
  | PyText (s : string).

Record MarketMetrics : Type := {
  overall_recruiter_screen_rate : R;
  overall_funnel_depth : R;
  overall_cluster_yield : R;
  last_updated : string
}.

(** ** Documents and files

    The value handed to [json.dump]; a file holds the document written to
    it, whose text is a function of the document (key order included). *)

#[local] Unset Elimination Schemes.
Inductive json : Type :=
  | JFloat (r : R)
  | JInt (n : nat)
  | JBool (b : bool)
  | JStr (s : string)
  | JObj (members : list (string * json)).
#[local] Set Elimination Schemes.

Definition config_json (m : ConfigMetrics) : json :=
  JObj [ ("recruiter_screen_rate", JFloat (recruiter_screen_rate m));
         ("funnel_depth", JFloat (funnel_depth m));
         ("average_rejection_speed", JFloat (average_rejection_speed m));
         ("num_applications", JInt (num_applications m));
         ("is_baseline", JBool (is_baseline m)) ].

Definition cluster_json (m : ClusterMetrics) : json :=
  JObj [ ("recruiter_screen_rate", JFloat (cl_recruiter_screen_rate m));
         ("funnel_depth", JFloat (cl_funnel_depth m));
         ("cluster_yield", JFloat (cl_cluster_yield m));
         ("num_applications", JInt (cl_num_applications m)) ].

Definition freq_json (ff : list (string * R)) : json :=
  JObj (map (fun e => (fst e, JFloat (snd e))) ff).

Definition market_json (m : MarketMetrics) : json :=
  JObj [ ("overall_recruiter_screen_rate", JFloat (overall_recruiter_screen_rate m));
         ("overall_funnel_depth", JFloat (overall_funnel_depth m));
         ("overall_cluster_yield", JFloat (overall_cluster_yield m));
         ("last_updated", JStr (last_updated m)) ].

Definition dict_json {V : Type} (f : V -> json) (d : list (string * V)) : json :=
  JObj (map (fun e => (fst e, f (snd e))) d).

Record FS : Type := {
  files : string -> option json;
  dirs : string -> bool
}.

(** Paths are text.  A directory is recorded under its path without
    trailing slashes; the empty path names nothing, [.] is the working
    directory and a path made of slashes is the root.  Other uses of [.]
    and [..] and doubled slashes are not resolved. *)

Definition is_slash (c : ascii) : bool := Ascii.eqb c "/".

Fixpoint all_slashes (s : string) : bool :=
  match s with
  | EmptyString => true
  | String c t => is_slash c && all_slashes t
  end.

Fixpoint has_no_slash (s : string) : bool :=
  match s with
  | EmptyString => true
  | String c t => negb (is_slash c) && has_no_slash t
  end.

(** [s.rstrip('/')] *)
Fixpoint rstrip_slash (s : string) : string :=
  match s with
  | EmptyString => EmptyString
  | String c t =>
      match rstrip_slash t with
      | EmptyString => if is_slash c then EmptyString else String c EmptyString
      | t' => String c t'
      end
  end.

(** [(p[:i], p[i:])] for [i = p.rfind('/') + 1] *)
Fixpoint raw_split (p : string) : string * string :=
  match p with
  | EmptyString => (EmptyString, EmptyString)
  | String c t =>
      let '(h, tl) := raw_split t in
      if is_slash c then (String c h, tl)
      else match h with
           | EmptyString => (EmptyString, String c tl)
           | _ => (String c h, tl)
           end
  end.

(** [os.path.split(p)]: the directory part, without trailing slashes
    unless it is the root, and the last component. *)
Definition path_split (p : string) : string * string :=
  let '(head, tail) := raw_split p in
  (if all_slashes head then head else rstrip_slash head, tail).

(** [os.path.isdir(p)] *)
Definition isdir (fs : FS) (p : string) : bool :=
  match p with
  | EmptyString => false
  | _ => if all_slashes p then true
         else if String.eqb (rstrip_slash p) "." then true
         else dirs fs (rstrip_slash p)
  end.

(** [os.path.isfile(p)] *)
Definition isfile (fs : FS) (p : string) : bool :=
  match files fs p with Some _ => true | None => false end.

(** The directories on the way to [path], outermost first: the text before
    each slash of [path], and [path] itself, without trailing slashes. *)
Fixpoint prefixes_at_slashes (before rest : string) : list string :=
  match rest with
  | EmptyString => []
  | String c t =>
      (if is_slash c then [before] else []) ++
      prefixes_at_slashes (before ++ String c EmptyString) t
  end.

Definition dir_chain (path : string) : list string :=
  filter (fun d => negb (String.eqb d ""))
         (map rstrip_slash (prefixes_at_slashes "" path ++ [path])).

(** [os.makedirs(path, exist_ok=True)]: makes the directory and every
    missing directory above it.  It raises on the empty path, and when the
    path or a directory above it is an existing file; nothing is made
    then. *)
Definition makedirs (path : string) (fs : FS) : result unit * FS :=
  match path with
  | EmptyString => (Err FileNotFoundError, fs)
  | _ =>
      let chain := dir_chain path in
      match find (isfile fs) chain with
      | Some d =>
          (Err (if String.eqb d (rstrip_slash path) then FileExistsError
                else NotADirectoryError), fs)
      | None =>
          (Ok tt, {| files := files fs;
                     dirs := fun p => dirs fs p || in_list p chain |})
      end
  end.

(** Whether a file can be made or overwritten at [p]: [p] has a last
    component, is not a directory, and lies in an existing directory (the
    working directory when it has no directory part). *)
Definition accessible (fs : FS) (p : string) : bool :=
  let '(head, tail) := path_split p in
  negb (String.eqb tail "") && negb (isdir fs p) &&
  match head with
  | EmptyString => true
  | _ => isdir fs head
  end.

(** The error raised for a path that is not accessible. *)
Definition access_error (fs : FS) (p : string) : exn :=
  let '(head, tail) := path_split p in
  if String.eqb p "" then FileNotFoundError
  else if String.eqb tail "" || isdir fs p then IsADirectoryError
  else if isfile fs head then NotADirectoryError
  else FileNotFoundError.

(** [open(path, 'w')] followed by [json.dump] *)
Definition write_file (path : string) (data : json) (fs : FS) : result unit * FS :=
  if accessible fs path then
    (Ok tt, {| files := fun p => if String.eqb p path then Some data else files fs p;
               dirs := dirs fs |})
  else (Err (access_error fs path), fs).

(** [os.replace(src, dst)] *)
Definition replace (src dst : string) (fs : FS) : result unit * FS :=
  match files fs src with
  | None => (Err FileNotFoundError, fs)
  | Some data =>
      if accessible fs dst then
        (Ok tt, {| files := fun p => if String.eqb p dst then Some data
                                     else if String.eqb p src then None
                                     else files fs p;
                   dirs := dirs fs |})
      else (Err (access_error fs dst), fs)
  end.

(** A step that may raise, followed by another: an exception stops the
    sequence and leaves the files as they are at that point. *)
Definition and_then (m k : FS -> result unit * FS) : FS -> result unit * FS :=
  fun fs =>
    match m fs with
    | (Ok _, fs') => k fs'
    | (Err e, fs') => (Err e, fs')
    end.

Notation "m >>> k" := (and_then m k) (at level 62, right associativity).

(** Lines 240-246. *)
Definition save_json (data : json) (path : string) : FS -> result unit * FS :=
  let tmp_path := path ++ ".tmp" in
  write_file tmp_path data >>> replace tmp_path path.

Fixpoint ends_with_slash (s : string) : bool :=
  match s with
  | EmptyString => false
  | String c EmptyString => Ascii.eqb c "/"
  | String _ t => ends_with_slash t
  end.

(** [os.path.join(a, b)] for a relative [b]. *)
Definition path_join (a b : string) : string :=
  match a with
  | EmptyString => b
  | _ => if ends_with_slash a then a ++ b else a ++ "/" ++ b
  end.

(** ** The runner

    The program reads the calendar and two text readers from its libraries:
    [today] is [datetime.date.today()], [fromisoformat] gives the date part
    of [datetime.datetime.fromisoformat] (or nothing when it raises), and
    [to_float] is the number [pd.to_numeric] reads from a text (or nothing
    when it is coerced to NaN).  [str_dtype] tells whether
    [pd.read_csv(dtype=str)] gives columns of the str type, as pandas 3
    does, or object columns, as earlier versions do. *)

Section Runner.

Variable str_dtype : bool.
Variable today : date.
Variable fromisoformat : string -> option date.
Variable to_float : string -> option R.

(** Lines 86-94. *)
Definition compute_days_since (date_str : cell) : option Z :=
  match fromisoformat (py_str date_str) with
  | None => None
  | Some date_obj => Some (toordinal today - toordinal date_obj)%Z
  end.

(** [pd.to_numeric(col, errors='coerce')] *)
Definition to_numeric (c : cell) : num :=
  match c with
  | NA => NaN
  | Str s => match to_float s with Some r => Num r | None => NaN end
  end.

(** Lines 107-113: the elapsed-time column.  [df.get('applied_date')] is
    [None] when the table has no such column, and [None.apply] raises. *)
Definition days_from_dates (df : DataFrame) : result (list num) :=
  match df_get df "applied_date" with
  | Some applied_dates => Ok (series_of_results (map compute_days_since applied_dates))
  | None => Err AttributeError
  end.

Definition days_column (df : DataFrame) : result (list num) :=
  match df_get df "days_since_apply" with
  | None => days_from_dates df
  | Some col =>
      if forallb isnull col then days_from_dates df
      else Ok (map to_numeric col)
  end.

(** Line 116: [compute_weight(x if x is not None else 0)] *)
Definition row_weight (x : num) : R :=
  compute_weight (match x with PyNone => Num 0 | _ => x end).

(** Lines 97-141, from the table [pd.read_csv] returned (pandas is taken
    to be installed). *)
Definition load_tracker (raw : DataFrame) : result (list NRow) :=
  let df := strip_columns raw in
  let n := df_len df in
  days <- days_column df ;;
  let weights := map row_weight days in
  let stage_col :=
    match df_get df "current_stage" with
    | Some col => col
    | None => repeat (Str "Auto_Rejected") n
    end in
  let stages := map (fun s => stage_lookup STAGE_SCORES (strip (py_str s)) 0%Z) stage_col in
  let fm_col :=
    match df_get df "failure_mode" with
    | Some col => col
    | None => repeat (Str "UNKNOWN") n
    end in
  let fms := map (fun x => coerce_failure_mode (Str (fillna "UNKNOWN" x))) fm_col in
  let cfg_col :=
    match df_get df "config_id" with
    | Some col => col
    | None =>
        let rv := match df_get df "resume_variant" with
                  | Some col => col | None => repeat (Str "") n end in
        let cv := match df_get df "cover_variant" with
                  | Some col => col | None => repeat (Str "") n end in
        zip_with (fun a b => cell_add (cell_add a (Str "_")) b) rv cv
    end in
  let cfgs := map (fillna "unknown") cfg_col in
  let cls :=
    match df_get df "cluster" with
    | Some col => col
    | None => repeat (Str "UNKNOWN") n
    end in
  let ats_col :=
    match df_get df "ats_system" with
    | Some col => col
    | None => repeat (Str "UNKNOWN") n
    end in
  let atss := map (fillna "UNKNOWN") ats_col in
  Ok (assemble n days weights stages fms cfgs cls atss).

(** Line 219, [df['weight'].sum()].  The weights of a table with rows are
    floats.  A table without rows keeps the column type [read_csv] gave
    it: the sum of an empty object column is 0, and the sum of an empty
    str column is the empty text. *)
Definition weight_sum (df : list NRow) : pyval :=
  match df with
  | [] => if str_dtype then PyText "" else PyFloat 0
  | _ => PyFloat (total_weight df)
  end.

(** Lines 217-237.  [total_weight <= 0] raises when the total is a text. *)
Definition compute_market_metrics (df : list NRow) : result MarketMetrics :=
  match weight_sum df with
  | PyText _ => Err TypeError
  | PyFloat tw =>
      if Rle_dec tw 0 then
        Ok {| overall_recruiter_screen_rate := 0;
              overall_funnel_depth := 0;
              overall_cluster_yield := 0;
              last_updated := isoformat today |}
      else
        let overall_rate := recruiter_weight df / tw in
        let depth := stage_weight_sum df / tw in
        let normalized_depth := depth / 4 in
        Ok {| overall_recruiter_screen_rate := overall_rate;
              overall_funnel_depth := depth;
              overall_cluster_yield := 0.6 * overall_rate + 0.4 * normalized_depth;
              last_updated := isoformat today |}
  end.

(** Lines 249-263.  [raw] is the table [pd.read_csv] returns for
    [tracker_path]; the result is the outcome of the run together with the
    file system it leaves.  The two closing [print] lines are left out. *)
Definition run_phase9 (raw : DataFrame) (output_dir : string) (fs : FS) : result unit * FS :=
  match load_tracker raw with
  | Err e => (Err e, fs)
  | Ok df =>
      let config_metrics := compute_config_metrics df in
      let cluster_metrics := compute_cluster_metrics df in
      let ats_patterns := compute_ats_patterns df in
      match compute_market_metrics df with
      | Err e => (Err e, fs)
      | Ok market_metrics =>
          (makedirs output_dir >>>
           save_json (dict_json config_json config_metrics)
                     (path_join output_dir "config_performance.json") >>>
           save_json (dict_json cluster_json cluster_metrics)
                     (path_join output_dir "cluster_yield.json") >>>
           save_json (dict_json freq_json ats_patterns)
                     (path_join output_dir "ats_outcome_patterns.json") >>>
           save_json (market_json market_metrics)
                     (path_join output_dir "market_performance.json")) fs
      end
  end.

End Runner.

(** ** Concrete tables *)

Definition tracker_columns : list string :=
  [ "application_id"; "config_id"; "resume_variant"; "cover_variant"; "cluster";
    "role_family"; "ats_system"; "applied_date"; "current_stage"; "failure_mode" ].

Definition run_date : date := {| year := 2024; month := 9; day := 15 |}.

(** One application whose date cannot be read. *)
Definition one_bad_date : DataFrame :=
  {| columns := tracker_columns;
     rows := [ [ Str "a1"; Str "A"; Str "r1"; Str "c1"; Str "backend"; Str "swe";
                 Str "greenhouse"; Str "not-a-date"; Str "Recruiter_Screen"; NA ] ] |}.

(** Two configurations; the second application's date cannot be read. *)
Definition good_and_bad_date : DataFrame :=
  {| columns := tracker_columns;
     rows := [ [ Str "a1"; Str "A"; Str "r1"; Str "c1"; Str "backend"; Str "swe";
                 Str "greenhouse"; Str "2024-09-15"; Str "Recruiter_Screen"; NA ];
               [ Str "a2"; Str "B"; Str "r2"; Str "c1"; Str "backend"; Str "swe";
                 Str "lever"; Str "not-a-date"; Str "Auto_Rejected"; NA ] ] |}.

(** One application whose cluster cell is blank. *)
Definition blank_cluster : DataFrame :=
  {| columns := tracker_columns;
     rows := [ [ Str "a1"; Str "A"; Str "r1"; Str "c1"; NA; Str "swe";
                 NA; Str "2024-09-15"; Str "Recruiter_Screen"; NA ] ] |}.

(** A header and no data row. *)
Definition header_only : DataFrame :=
  {| columns := tracker_columns; rows := [] |}.

(** A table with neither [days_since_apply] nor [applied_date]. *)
Definition no_dates : DataFrame :=
  {| columns := [ "application_id"; "config_id"; "current_stage" ];
     rows := [ [ Str "a1"; Str "A"; Str "Offer" ] ] |}.

(** A normalized row: an application made on the run date that reached a
    recruiter screen. *)
Definition sample_row : NRow :=
  {| days_since_apply := Num 0; weight := 1; stage_score := 1%Z;
     failure_mode := "UNKNOWN"; config_id := "A"; cluster := Str "backend";
     ats_system := "greenhouse" |}.

(** A normalized row whose elapsed time is unknown. *)
Definition stale_row : NRow :=
  {| days_since_apply := NaN; weight := 0; stage_score := 2%Z;
     failure_mode := "UNKNOWN"; config_id := "B"; cluster := Str "backend";
     ats_system := "lever" |}.

(** A table with a [days_since_apply] column, blank in its second row. *)
Definition with_days_column : DataFrame :=
  {| columns := [ "application_id"; "config_id"; "applied_date"; "current_stage";
                  "days_since_apply" ];
     rows := [ [ Str "a1"; Str "A"; Str "2024-09-15"; Str "Offer"; Str "30" ];
               [ Str "a2"; Str "A"; Str "2024-09-15"; Str "Auto_Rejected"; NA ] ] |}.

(** A table whose [days_since_apply] column is wholly blank. *)
Definition blank_days_column : DataFrame :=
  {| columns := [ "application_id"; "config_id"; "applied_date"; "current_stage";
                  "days_since_apply" ];
     rows := [ [ Str "a1"; Str "A"; Str "2024-09-15"; Str "Offer"; NA ];
               [ Str "a2"; Str "A"; Str "soon"; Str "Auto_Rejected"; NA ] ] |}.

(** A table with neither a [config_id] nor a [cluster] column. *)
Definition no_config_column : DataFrame :=
  {| columns := [ "application_id"; "resume_variant"; "cover_variant";
                  "applied_date"; "current_stage" ];
     rows := [ [ Str "a1"; Str "r1"; Str "c1"; Str "2024-09-15"; Str "Offer" ];
               [ Str "a2"; NA; Str "c1"; Str "2024-09-15"; Str "Offer" ] ] |}.

(** The four documents a run writes. *)
Definition output_names : list string :=
  [ "config_performance.json"; "cluster_yield.json";
    "ats_outcome_patterns.json"; "market_performance.json" ].

Definition empty_fs : FS :=
  {| files := fun _ => None; dirs := fun _ => false |}.

Definition num_applications_total (out : list (string * ConfigMetrics)) : nat :=
  fold_right (fun e acc => (num_applications (snd e) + acc)%nat) O out.

(** ** Facts about the decay model *)

Lemma exp_neg_ln2 : exp (- ln 2) = / 2.
Proof.
  rewrite exp_Ropp, exp_ln by lra. reflexivity.
Qed.

Lemma compute_weight_neg (d : R) : d < 0 -> compute_weight (Num d) = 1.
Proof.
  intros H. unfold compute_weight. destruct (Rlt_dec d 0); [reflexivity | contradiction].
Qed.

Lemma compute_weight_nonneg (d : R) :
  0 <= d -> compute_weight (Num d) = exp (- (ln 2 / 60) * d).
Proof.
  intros H. unfold compute_weight, LAMBDA, HALF_LIFE_DAYS.
  destruct (Rlt_dec d 0); [lra | reflexivity].
Qed.

Lemma compute_weight_ge0 (x : num) : 0 <= compute_weight x.
Proof.
  destruct x as [| | d]; simpl; try lra.
  destruct (Rlt_dec d 0); [lra | left; apply exp_pos].
Qed.

Lemma compute_weight_half_life (d : R) :
  0 <= d -> compute_weight (Num d) = compute_weight (Num (d + 60)) * 2.
Proof.
  intros H. rewrite !compute_weight_nonneg by lra.
  replace (- (ln 2 / 60) * (d + 60)) with (- (ln 2 / 60) * d + - ln 2) by field.
  rewrite exp_plus, exp_neg_ln2. field.
Qed.

(** C1: the decay weight is the piecewise function: an unknown elapsed time
    ([None] or NaN) gives 0, a negative elapsed time gives exactly 1, and
    an elapsed time [d >= 0] gives [exp (- ln 2 / 60 * d)]; hence the weight
    at 0 is 1 and the weight at [d >= 0] is twice the weight at [d + 60]. *)
Theorem C1_compute_weight_piecewise :
  compute_weight PyNone = 0 /\
  compute_weight NaN = 0 /\
  (forall d, d < 0 -> compute_weight (Num d) = 1) /\
  (forall d, 0 <= d -> compute_weight (Num d) = exp (- (ln 2 / 60) * d)) /\
  compute_weight (Num 0) = 1 /\
  (forall d, 0 <= d -> compute_weight (Num d) = compute_weight (Num (d + 60)) * 2).
Proof.
  repeat split.
  - apply compute_weight_neg.
  - apply compute_weight_nonneg.
  - rewrite compute_weight_nonneg by lra. rewrite Rmult_0_r. apply exp_0.
  - apply compute_weight_half_life.
Qed.

Lemma C1_compute_weight_piecewise_witness :
  compute_weight (Num (-3)) = 1 /\
  compute_weight (Num 60) = exp (- (ln 2 / 60) * 60) /\
  compute_weight (Num 0) = compute_weight (Num (0 + 60)) * 2.
Proof.
  destruct C1_compute_weight_piecewise as (_ & _ & Hneg & Hpos & _ & Hhalf).
  split; [apply Hneg; lra | split; [apply Hpos; lra | apply Hhalf; lra]].
Defined.

(** ** Facts about dicts and the group loop *)

Local Open Scope list_scope.

Lemma dict_set_fresh {V : Type} (d : list (string * V)) (k : string) (v : V) :
  ~ In k (map fst d) -> dict_set d k v = d ++ [(k, v)].
Proof.
  induction d as [| [k' v'] t IH]; simpl; intros Hk; [reflexivity |].
  destruct (String.eqb k' k) eqn:E.
  - apply String.eqb_eq in E. exfalso. apply Hk. left. exact E.
  - rewrite IH; [reflexivity |]. intros Hin. apply Hk. right. exact Hin.
Qed.

(** A loop that skips some groups and stores the others under distinct
    keys builds the list of the stored entries, in group order. *)
Lemma group_loop_spec {G V : Type} (key : G -> string) (sel : G -> option V)
    (step : list (string * V) -> G -> list (string * V)) :
  (forall acc g, step acc g =
     match sel g with Some v => dict_set acc (key g) v | None => acc end) ->
  forall (gs : list G) (acc : list (string * V)),
    NoDup (map key gs) ->
    (forall g, In g gs -> ~ In (key g) (map fst acc)) ->
    fold_left step gs acc =
    acc ++ flat_map (fun g => match sel g with
                              | Some v => [(key g, v)]
                              | None => []
                              end) gs.
Proof.
  intros Hstep gs. induction gs as [| g gs IH]; intros acc Hnd Hfresh; simpl.
  - now rewrite app_nil_r.
  - inversion Hnd as [| ? ? Hnotin Hnd']; subst.
    rewrite Hstep. destruct (sel g) as [v |] eqn:Es.
    + rewrite dict_set_fresh by (apply Hfresh; now left).
      rewrite IH; [now rewrite <- app_assoc | exact Hnd' |].
      intros g' Hin Hk. rewrite map_app, in_app_iff in Hk. simpl in Hk.
      destruct Hk as [Hk | [Hk | []]].
      * apply (Hfresh g'); [now right | exact Hk].
      * apply Hnotin. rewrite Hk. now apply in_map.
    + apply IH; [exact Hnd' |]. intros g' Hin. apply Hfresh. now right.
Qed.

Lemma insert_key_perm (k : string) (l : list string) :
  Permutation (insert_key k l) (k :: l).
Proof.
  induction l as [| h t IH]; simpl; [reflexivity |].
  destruct (String.leb k h); [reflexivity |].
  rewrite IH. apply perm_swap.
Qed.

Lemma sort_keys_perm (l : list string) : Permutation (sort_keys l) l.
Proof.
  induction l as [| h t IH]; simpl; [reflexivity |].
  rewrite insert_key_perm. now constructor.
Qed.

Lemma present_keys_In (l : list cell) (k : string) :
  In k (present_keys l) <-> In (Str k) l.
Proof.
  induction l as [| [| s] t IH]; simpl.
  - tauto.
  - rewrite IH. split; [now right | intros [H | H]; [discriminate | exact H]].
  - rewrite IH. split; intros [H | H]; auto; left; congruence.
Qed.

Lemma group_keys_NoDup (key : NRow -> cell) (df : list NRow) :
  NoDup (group_keys key df).
Proof.
  unfold group_keys.
  eapply Permutation_NoDup; [symmetry; apply sort_keys_perm | apply NoDup_nodup].
Qed.

Lemma group_keys_In (key : NRow -> cell) (df : list NRow) (k : string) :
  In k (group_keys key df) <-> exists r, In r df /\ key r = Str k.
Proof.
  unfold group_keys. split.
  - intros H. apply (Permutation_in _ (sort_keys_perm _)) in H.
    apply nodup_In, present_keys_In, in_map_iff in H.
    destruct H as (r & Hr & Hin). now exists r.
  - intros (r & Hin & Hr).
    apply (Permutation_in _ (Permutation_sym (sort_keys_perm _))).
    apply nodup_In, present_keys_In, in_map_iff. now exists r.
Qed.

Lemma groupby_keys (key : NRow -> cell) (df : list NRow) :
  map fst (groupby key df) = group_keys key df.
Proof.
  unfold groupby. rewrite map_map. simpl. apply map_id.
Qed.

Lemma groupby_empty (key : NRow -> cell) : groupby key [] = [].
Proof. reflexivity. Qed.

(** What the two skipping loops build from the groups of a table. *)
Lemma survivors_In {V : Type} (entry : list NRow -> V) (key : NRow -> cell)
    (df : list NRow) (k : string) (v : V) :
  In (k, v)
     (flat_map (fun g => if Rle_dec (total_weight (snd g)) 0 then []
                         else [(fst g, entry (snd g))]) (groupby key df))
  <-> In k (group_keys key df) /\ 0 < total_weight (group_of key df k) /\
      v = entry (group_of key df k).
Proof.
  rewrite in_flat_map. unfold groupby. split.
  - intros ([k' g] & Hin & Hkv). apply in_map_iff in Hin.
    destruct Hin as (k0 & Heq & Hk0). inversion Heq; subst k' g. simpl in Hkv.
    destruct (Rle_dec (total_weight (group_of key df k0)) 0) as [Hle | Hgt];
      [destruct Hkv |].
    destruct Hkv as [Hkv | []]. inversion Hkv; subst.
    repeat split; [exact Hk0 | lra].
  - intros (Hk & Hpos & ->). exists (k, group_of key df k). split.
    + apply in_map_iff. now exists k.
    + simpl. destruct (Rle_dec (total_weight (group_of key df k)) 0); [lra | now left].
Qed.

Lemma survivors_keys {V : Type} (entry : list NRow -> V) (key : NRow -> cell)
    (df : list NRow) :
  map fst (flat_map (fun g => if Rle_dec (total_weight (snd g)) 0 then []
                              else [(fst g, entry (snd g))]) (groupby key df))
  = filter (fun k => positive (total_weight (group_of key df k))) (group_keys key df).
Proof.
  unfold groupby. induction (group_keys key df) as [| k ks IH]; simpl; [reflexivity |].
  rewrite map_app, IH. unfold positive.
  destruct (Rle_dec (total_weight (group_of key df k)) 0); reflexivity.
Qed.

Lemma config_loop_spec (key : NRow -> cell) (df : list NRow) :
  config_loop (groupby key df) =
  flat_map (fun g => if Rle_dec (total_weight (snd g)) 0 then []
                     else [(fst g, config_entry (snd g))]) (groupby key df).
Proof.
  unfold config_loop.
  rewrite (group_loop_spec fst
             (fun g => if Rle_dec (total_weight (snd g)) 0 then None
                       else Some (config_entry (snd g)))).
  - simpl. apply flat_map_ext. intros [k g]. simpl.
    destruct (Rle_dec (total_weight g) 0); reflexivity.
  - intros acc [k g]. simpl. destruct (Rle_dec (total_weight g) 0); reflexivity.
  - rewrite groupby_keys. apply group_keys_NoDup.
  - intros g _ [].
Qed.

Lemma cluster_loop_spec (key : NRow -> cell) (df : list NRow) :
  cluster_loop (groupby key df) =
  flat_map (fun g => if Rle_dec (total_weight (snd g)) 0 then []
                     else [(fst g, cluster_entry (snd g))]) (groupby key df).
Proof.
  unfold cluster_loop.
  rewrite (group_loop_spec fst
             (fun g => if Rle_dec (total_weight (snd g)) 0 then None
                       else Some (cluster_entry (snd g)))).
  - simpl. apply flat_map_ext. intros [k g]. simpl.
    destruct (Rle_dec (total_weight g) 0); reflexivity.
  - intros acc [k g]. simpl. destruct (Rle_dec (total_weight g) 0); reflexivity.
  - rewrite groupby_keys. apply group_keys_NoDup.
  - intros g _ [].
Qed.

Lemma compute_config_metrics_unfold (df : list NRow) :
  compute_config_metrics df =
  classify_baselines (config_loop (groupby (fun r => Str (config_id r)) df)).
Proof. destruct df; reflexivity. Qed.

Lemma compute_cluster_metrics_unfold (df : list NRow) :
  compute_cluster_metrics df = cluster_loop (groupby cluster df).
Proof. destruct df; reflexivity. Qed.

Lemma classify_baselines_keys (cm : list (string * ConfigMetrics)) :
  map fst (classify_baselines cm) = map fst cm.
Proof.
  destruct cm as [| e t]; [reflexivity |].
  unfold classify_baselines. rewrite map_map. reflexivity.
Qed.

Lemma classify_baselines_rates (cm : list (string * ConfigMetrics)) :
  map (fun e => recruiter_screen_rate (snd e)) (classify_baselines cm) =
  map (fun e => recruiter_screen_rate (snd e)) cm.
Proof.
  destruct cm as [| e t]; [reflexivity |].
  unfold classify_baselines. rewrite map_map. reflexivity.
Qed.

Lemma classify_baselines_In (cm : list (string * ConfigMetrics)) (k : string)
    (m' : ConfigMetrics) :
  In (k, m') (classify_baselines cm) <->
  exists m, In (k, m) cm /\
    m' = set_is_baseline m
           (Rgeb (recruiter_screen_rate m)
                 (median (map (fun e => recruiter_screen_rate (snd e)) cm))).
Proof.
  destruct cm as [| e t].
  - simpl. split; [intros [] | intros (m & [] & _)].
  - unfold classify_baselines. rewrite in_map_iff. split.
    + intros ([k0 m] & Heq & Hin). inversion Heq; subst. now exists m.
    + intros (m & Hin & ->). now exists (k, m).
Qed.

(** ** The group rollups *)

Lemma dict_entry_unique {V : Type} (d : list (string * V)) (k : string) (a b : V) :
  NoDup (map fst d) -> In (k, a) d -> In (k, b) d -> a = b.
Proof.
  induction d as [| [k0 v0] d IH]; simpl; intros Hnd Ha Hb; [destruct Ha |].
  inversion Hnd as [| ? ? Hnotin Hnd']; subst.
  destruct Ha as [Ha | Ha], Hb as [Hb | Hb].
  - congruence.
  - inversion Ha; subst. exfalso. apply Hnotin.
    apply in_map_iff. now exists (k, b).
  - inversion Hb; subst. exfalso. apply Hnotin.
    apply in_map_iff. now exists (k, a).
  - now apply IH.
Qed.

(** C5: in the configuration and cluster rollups a group whose total weight
    is [<= 0] has no entry, and a group whose total weight is [> 0] has
    exactly one entry, holding its weighted metrics; the output has no
    other key. *)
Theorem C5_zero_weight_groups_omitted (df : list NRow) :
  let by_config := fun r => Str (config_id r) in
  let cfg := compute_config_metrics df in
  let cl := compute_cluster_metrics df in
  NoDup (map fst cfg) /\ NoDup (map fst cl) /\
  (forall k, In k (map fst cfg) -> In k (group_keys by_config df)) /\
  (forall k, In k (map fst cl) -> In k (group_keys cluster df)) /\
  (forall k, In k (group_keys by_config df) ->
     let g := group_of by_config df k in
     (total_weight g <= 0 -> ~ In k (map fst cfg)) /\
     (0 < total_weight g ->
        exists m, In (k, m) cfg /\
          (forall m', In (k, m') cfg -> m' = m) /\
          recruiter_screen_rate m = recruiter_weight g / total_weight g /\
          funnel_depth m = stage_weight_sum g / total_weight g /\
          average_rejection_speed m = days_weight_sum g / total_weight g /\
          num_applications m = List.length g)) /\
  (forall k, In k (group_keys cluster df) ->
     let g := group_of cluster df k in
     (total_weight g <= 0 -> ~ In k (map fst cl)) /\
     (0 < total_weight g ->
        exists m, In (k, m) cl /\
          (forall m', In (k, m') cl -> m' = m) /\
          cl_recruiter_screen_rate m = recruiter_weight g / total_weight g /\
          cl_funnel_depth m = stage_weight_sum g / total_weight g /\
          cl_cluster_yield m =
            0.6 * (recruiter_weight g / total_weight g)
            + 0.4 * (stage_weight_sum g / total_weight g / 4) /\
          cl_num_applications m = List.length g)).
Proof.
  intros by_config cfg cl.
  assert (Hcfg : map fst cfg =
            filter (fun k => positive (total_weight (group_of by_config df k)))
                   (group_keys by_config df)).
  { unfold cfg. rewrite compute_config_metrics_unfold, classify_baselines_keys,
      config_loop_spec. apply survivors_keys. }
  assert (Hcl : map fst cl =
            filter (fun k => positive (total_weight (group_of cluster df k)))
                   (group_keys cluster df)).
  { unfold cl. rewrite compute_cluster_metrics_unfold, cluster_loop_spec.
    apply survivors_keys. }
  assert (Ncfg : NoDup (map fst cfg))
    by (rewrite Hcfg; apply NoDup_filter, group_keys_NoDup).
  assert (Ncl : NoDup (map fst cl))
    by (rewrite Hcl; apply NoDup_filter, group_keys_NoDup).
  split; [exact Ncfg |]. split; [exact Ncl |].
  split; [intros k; rewrite Hcfg, filter_In; tauto |].
  split; [intros k; rewrite Hcl, filter_In; tauto |].
  split.
  - intros k Hk g. split.
    + intros Hle. rewrite Hcfg, filter_In. unfold positive. fold g.
      destruct (Rle_dec (total_weight g) 0); [intros [_ H]; discriminate | lra].
    + intros Hpos.
      assert (Hin : In (k, set_is_baseline (config_entry g)
                (Rgeb (recruiter_screen_rate (config_entry g))
                   (median (map (fun e => recruiter_screen_rate (snd e))
                              (config_loop (groupby by_config df)))))) cfg).
      { unfold cfg. rewrite compute_config_metrics_unfold. fold by_config.
        apply classify_baselines_In. exists (config_entry g). split; [| reflexivity].
        rewrite config_loop_spec. apply survivors_In. now repeat split. }
      eexists. split; [exact Hin |]. split; [| repeat split].
      intros m' Hm'. exact (dict_entry_unique cfg k _ _ Ncfg Hm' Hin).
  - intros k Hk g. split.
    + intros Hle. rewrite Hcl, filter_In. unfold positive. fold g.
      destruct (Rle_dec (total_weight g) 0); [intros [_ H]; discriminate | lra].
    + intros Hpos.
      assert (Hin : In (k, cluster_entry g) cl).
      { unfold cl. rewrite compute_cluster_metrics_unfold, cluster_loop_spec.
        apply survivors_In. now repeat split. }
      exists (cluster_entry g). split; [exact Hin |]. split; [| repeat split].
      intros m' Hm'. exact (dict_entry_unique cl k _ _ Ncl Hm' Hin).
Qed.

(** C4: after the rollup, a configuration is a baseline exactly when its
    recruiter screen rate is at least the median of the rates of the
    configurations in the output; when no configuration survives, the
    output is empty. *)
Theorem C4_baseline_iff_at_or_above_median (df : list NRow) :
  let by_config := fun r => Str (config_id r) in
  let out := compute_config_metrics df in
  (forall k m, In (k, m) out ->
     (is_baseline m = true <->
      recruiter_screen_rate m >=
      median (map (fun e => recruiter_screen_rate (snd e)) out))) /\
  ((forall k, In k (group_keys by_config df) ->
      total_weight (group_of by_config df k) <= 0) ->
   out = []).
Proof.
  intros by_config out. split.
  - intros k m Hin. unfold out in *.
    rewrite compute_config_metrics_unfold in *.
    rewrite classify_baselines_rates.
    apply classify_baselines_In in Hin. destruct Hin as (m0 & _ & ->).
    simpl. unfold Rgeb.
    destruct (Rle_dec _ _) as [Hle | Hnle]; split; intros H;
      try reflexivity; try discriminate; lra.
  - intros Hall. unfold out. rewrite compute_config_metrics_unfold.
    fold by_config. rewrite config_loop_spec.
    replace (flat_map _ (groupby by_config df)) with (@nil (string * ConfigMetrics));
      [reflexivity |].
    symmetry. unfold groupby.
    assert (H : forall ks, (forall k, In k ks ->
                  total_weight (group_of by_config df k) <= 0) ->
              flat_map (fun g => if Rle_dec (total_weight (snd g)) 0 then []
                                 else [(fst g, config_entry (snd g))])
                (map (fun k => (k, group_of by_config df k)) ks) = []).
    { induction ks as [| k ks IH]; intros Hks; simpl; [reflexivity |].
      destruct (Rle_dec (total_weight (group_of by_config df k)) 0) as [_ | Hn].
      - apply IH. intros k' Hk'. apply Hks. now right.
      - exfalso. apply Hn, Hks. now left. }
    apply H, Hall.
Qed.

(** ** Normalization keeps every row *)

Lemma assemble_length n days weights stages fms cfgs cls atss :
  List.length (assemble n days weights stages fms cfgs cls atss) = n.
Proof. unfold assemble. now rewrite length_map, length_seq. Qed.

Lemma unknown_is_a_mode : In "UNKNOWN"%string FAILURE_MODES.
Proof. unfold FAILURE_MODES. simpl. auto 10. Qed.

Lemma coerce_failure_mode_In (c : cell) : In (coerce_failure_mode c) FAILURE_MODES.
Proof.
  destruct c as [| s]; unfold coerce_failure_mode; [apply unknown_is_a_mode |].
  destruct (in_list s FAILURE_MODES) eqn:E; [| apply unknown_is_a_mode].
  unfold in_list in E. apply existsb_exists in E.
  destruct E as (x & Hx & Heq). apply String.eqb_eq in Heq. now subst.
Qed.

(** ** Counting the rows of the surviving groups *)

Lemma filter_length_or {A : Type} (f g : A -> bool) (l : list A) :
  (forall x, f x = true -> g x = false) ->
  List.length (filter (fun x => f x || g x) l) =
  (List.length (filter f l) + List.length (filter g l))%nat.
Proof.
  intros Hdisj. induction l as [| x l IH]; simpl; [reflexivity |].
  destruct (f x) eqn:Ef; simpl.
  - rewrite (Hdisj x Ef). simpl. now rewrite IH.
  - destruct (g x); simpl; rewrite IH; lia.
Qed.

Lemma num_applications_total_app (a b : list (string * ConfigMetrics)) :
  num_applications_total (a ++ b) =
  (num_applications_total a + num_applications_total b)%nat.
Proof.
  induction a as [| e a IH]; simpl; [reflexivity |]. rewrite IH. lia.
Qed.

Lemma num_applications_total_classify (cm : list (string * ConfigMetrics)) :
  num_applications_total (classify_baselines cm) = num_applications_total cm.
Proof.
  destruct cm as [| e0 t0]; [reflexivity |].
  unfold classify_baselines.
  generalize (median (map (fun e => recruiter_screen_rate (snd e)) (e0 :: t0))).
  intros med. induction (e0 :: t0) as [| e t IH]; simpl; [reflexivity |].
  now rewrite IH.
Qed.

Lemma survivors_count (df : list NRow) (ks : list string) :
  NoDup ks ->
  num_applications_total
    (flat_map (fun g => if Rle_dec (total_weight (snd g)) 0 then []
                        else [(fst g, config_entry (snd g))])
       (map (fun k => (k, group_of (fun r => Str (config_id r)) df k)) ks))
  = List.length
      (filter (fun r => in_list (config_id r) ks &&
                 positive (total_weight
                   (group_of (fun r => Str (config_id r)) df (config_id r)))) df).
Proof.
  set (by_config := fun r => Str (config_id r)).
  induction ks as [| k ks IH]; intros Hnd.
  - simpl. induction df as [| r df IHd]; [reflexivity | exact IHd].
  - inversion Hnd as [| ? ? Hnotin Hnd']; subst.
    cbn [map flat_map]. rewrite num_applications_total_app, (IH Hnd').
    rewrite (filter_ext
               (fun r => in_list (config_id r) (k :: ks) &&
                         positive (total_weight (group_of by_config df (config_id r))))
               (fun r => (String.eqb (config_id r) k &&
                          positive (total_weight (group_of by_config df k)))
                         || (in_list (config_id r) ks &&
                             positive (total_weight
                                         (group_of by_config df (config_id r)))))).
    + rewrite filter_length_or.
      * f_equal. cbn [fst snd]. unfold positive.
        destruct (Rle_dec (total_weight (group_of by_config df k)) 0) as [Hle | Hgt].
        -- simpl. rewrite (filter_ext _ (fun _ => false)).
           ++ clear. induction df; simpl; auto.
           ++ intros x. apply andb_false_r.
        -- cbn [num_applications_total fold_right config_entry num_applications snd].
           rewrite Nat.add_0_r. unfold group_of, by_config, cell_eqb.
           f_equal. apply filter_ext. intros r. now rewrite andb_true_r.
      * intros r Hr. apply andb_true_iff in Hr. destruct Hr as [Hr _].
        apply String.eqb_eq in Hr. rewrite Hr.
        destruct (in_list k ks) eqn:E; [| reflexivity].
        exfalso. apply Hnotin. unfold in_list in E. apply existsb_exists in E.
        destruct E as (x & Hx & Heq). apply String.eqb_eq in Heq. now subst.
    + intros r. unfold in_list. cbn [existsb].
      destruct (String.eqb (config_id r) k) eqn:E.
      * apply String.eqb_eq in E. rewrite E. simpl.
        destruct (positive _); simpl; [reflexivity |]. now rewrite andb_false_r.
      * reflexivity.
Qed.

Lemma config_count (nf : list NRow) :
  num_applications_total (compute_config_metrics nf) =
  List.length
    (filter (fun r => positive (total_weight
               (group_of (fun r => Str (config_id r)) nf (config_id r)))) nf).
Proof.
  rewrite compute_config_metrics_unfold, num_applications_total_classify,
    config_loop_spec.
  unfold groupby. rewrite survivors_count by apply group_keys_NoDup.
  f_equal. apply filter_ext_in. intros r Hr.
  replace (in_list (config_id r) (group_keys (fun r0 => Str (config_id r0)) nf))
    with true; [reflexivity |].
  symmetry. unfold in_list. apply existsb_exists. exists (config_id r).
  split; [| apply String.eqb_refl].
  apply group_keys_In. now exists r.
Qed.

(** ** Failure-mode shares *)

Lemma fail_freq_unfold (g : list NRow) :
  fail_freq g =
  map (fun mode => (mode, if Rlt_dec 0 (total_weight g)
                          then mode_weight g mode / total_weight g else 0))
      FAILURE_MODES.
Proof. reflexivity. Qed.

Lemma compute_ats_patterns_unfold (df : list NRow) :
  compute_ats_patterns df =
  map (fun k => (k, fail_freq (group_of (fun r => Str (ats_system r)) df k)))
      (group_keys (fun r => Str (ats_system r)) df).
Proof.
  destruct df as [| r0 df0]; [reflexivity |].
  unfold compute_ats_patterns. cbn [df_empty].
  generalize (r0 :: df0). intros df.
  rewrite (group_loop_spec fst (fun g => Some (fail_freq (snd g)))).
  - simpl. unfold groupby. rewrite flat_map_concat_map, map_map. simpl.
    induction (group_keys _ df) as [| k ks IH]; simpl; [reflexivity | now rewrite IH].
  - intros acc [k g]. reflexivity.
  - rewrite groupby_keys. apply group_keys_NoDup.
  - intros g _ [].
Qed.

Lemma sum_map_plus {A : Type} (f g : A -> R) (l : list A) :
  sum (map (fun x => f x + g x) l) = sum (map f l) + sum (map g l).
Proof.
  induction l as [| x l IH]; simpl; [lra |]. rewrite IH. lra.
Qed.

Lemma sum_map_div {A : Type} (f : A -> R) (c : R) (l : list A) :
  sum (map (fun x => f x / c) l) = sum (map f l) / c.
Proof.
  induction l as [| x l IH]; simpl; [unfold Rdiv; lra |]. rewrite IH.
  unfold Rdiv. lra.
Qed.

Lemma sum_indicator (x : string) (w : R) (ms : list string) :
  NoDup ms -> In x ms ->
  sum (map (fun m => if String.eqb x m then w else 0) ms) = w.
Proof.
  induction ms as [| m ms IH]; intros Hnd Hin; [destruct Hin |].
  inversion Hnd as [| ? ? Hnotin Hnd']; subst. simpl.
  destruct (String.eqb x m) eqn:E.
  - apply String.eqb_eq in E. subst m.
    rewrite (map_ext_in _ (fun _ => 0)).
    + assert (Hz : sum (map (fun _ : string => 0) ms) = 0).
      { clear. induction ms as [| m ms IH]; simpl; [reflexivity |]. rewrite IH. lra. }
      rewrite Hz. lra.
    + intros m Hm. destruct (String.eqb x m) eqn:E'; [| reflexivity].
      apply String.eqb_eq in E'. subst m. contradiction.
  - destruct Hin as [Heq | Hin].
    + subst m. rewrite String.eqb_refl in E. discriminate.
    + rewrite (IH Hnd' Hin). lra.
Qed.

(** Every row's weight lands in exactly one failure mode. *)
Lemma mode_weights_partition (g : list NRow) (ms : list string) :
  NoDup ms ->
  (forall r, In r g -> In (failure_mode r) ms) ->
  sum (map (mode_weight g) ms) = total_weight g.
Proof.
  intros Hnd. induction g as [| r g IH]; intros Hall.
  - unfold mode_weight, total_weight. simpl.
    clear. induction ms as [| m ms IHm]; simpl; [reflexivity |].
    rewrite IHm. lra.
  - rewrite (map_ext _ (fun m => (if String.eqb (failure_mode r) m then weight r else 0)
                                 + mode_weight g m)).
    + rewrite sum_map_plus, sum_indicator, IH.
      * unfold total_weight. simpl. reflexivity.
      * intros r' Hr'. apply Hall. now right.
      * exact Hnd.
      * apply Hall. now left.
    + intros m. unfold mode_weight. simpl.
      destruct (String.eqb (failure_mode r) m); simpl; lra.
Qed.

Lemma FAILURE_MODES_NoDup : NoDup FAILURE_MODES.
Proof.
  unfold FAILURE_MODES.
  repeat (constructor; [simpl; intuition discriminate |]). constructor.
Qed.

(** ** Files *)

Lemma append_inj_l (p a b : string) : (p ++ a = p ++ b)%string -> a = b.
Proof.
  induction p as [| c p IH]; simpl; intros H; [exact H |].
  inversion H. now apply IH.
Qed.

Lemma append_assoc (a b c : string) : ((a ++ b) ++ c = a ++ (b ++ c))%string.
Proof.
  induction a as [| x a IH]; simpl; [reflexivity | now rewrite IH].
Qed.

Lemma string_app_nil_r (s : string) : (s ++ "")%string = s.
Proof. induction s as [| c s IH]; simpl; [reflexivity | now rewrite IH]. Qed.

Lemma string_app_length (a b : string) :
  String.length (a ++ b) = (String.length a + String.length b)%nat.
Proof. induction a as [| c a IH]; simpl; [reflexivity | now rewrite IH]. Qed.

Lemma accessible_same_dirs (fs : FS) (f : string -> option json) (p : string) :
  accessible {| files := f; dirs := dirs fs |} p = accessible fs p.
Proof. destruct fs as [f0 d]. reflexivity. Qed.

(** What [save_json] does when both of its steps can go through. *)
Lemma save_json_success (data : json) (path : string) (fs : FS) :
  accessible fs (path ++ ".tmp") = true -> accessible fs path = true ->
  let r := save_json data path fs in
  fst r = Ok tt /\
  files (snd r) path = Some data /\
  files (snd r) (path ++ ".tmp")%string = None /\
  (forall q, q <> path -> q <> (path ++ ".tmp")%string ->
     files (snd r) q = files fs q) /\
  dirs (snd r) = dirs fs.
Proof.
  intros Htmp Hpath. unfold save_json, and_then, write_file. rewrite Htmp.
  unfold replace. cbn [files]. rewrite String.eqb_refl.
  rewrite accessible_same_dirs, Hpath. cbn [fst snd files dirs].
  rewrite String.eqb_refl.
  assert (Hne : (path ++ ".tmp")%string <> path).
  { intros E. apply (f_equal String.length) in E.
    rewrite string_app_length in E. simpl in E. lia. }
  split; [reflexivity |]. split; [reflexivity |]. split; [| split; [| reflexivity]].
  - apply String.eqb_neq in Hne. now rewrite Hne, String.eqb_refl.
  - intros q H1 H2. apply String.eqb_neq in H1, H2. now rewrite H1, !H2.
Qed.

(** [save_json] goes through exactly when both paths are accessible, and
    whatever happens it changes no directory and no file other than the
    document and its temporary file. *)
Lemma save_json_frame (data : json) (path : string) (fs : FS) :
  let r := save_json data path fs in
  (fst r = Ok tt <->
   accessible fs (path ++ ".tmp") = true /\ accessible fs path = true) /\
  (forall q, q <> path -> q <> (path ++ ".tmp")%string ->
     files (snd r) q = files fs q) /\
  dirs (snd r) = dirs fs.
Proof.
  unfold save_json, and_then, write_file, replace.
  destruct (accessible fs (path ++ ".tmp")) eqn:Htmp.
  - cbn [files]. rewrite String.eqb_refl.
    rewrite accessible_same_dirs.
    destruct (accessible fs path) eqn:Hpath; cbn [fst snd files dirs].
    + split; [tauto |]. split; [| reflexivity].
      intros q H1 H2. apply String.eqb_neq in H1, H2. now rewrite H1, !H2.
    + split; [split; [discriminate | intros [_ H]; discriminate] |].
      split; [| reflexivity].
      intros q _ H2. apply String.eqb_neq in H2. now rewrite H2.
  - cbn [fst snd]. split; [split; [discriminate | intros [H _]; discriminate] |].
    split; reflexivity.
Qed.

(** *** Paths under the output directory *)

Lemma all_slashes_app (a b : string) :
  all_slashes (a ++ b) = all_slashes a && all_slashes b.
Proof.
  induction a as [| c a IH]; simpl; [reflexivity |]. rewrite IH.
  now rewrite andb_assoc.
Qed.

Lemma rstrip_slash_empty (s : string) :
  rstrip_slash s = EmptyString <-> all_slashes s = true.
Proof.
  induction s as [| c s IH]; simpl; [tauto |].
  destruct (rstrip_slash s) as [| x r] eqn:E.
  - destruct (is_slash c); simpl.
    + split; [intros _; now apply IH | reflexivity].
    + split; discriminate.
  - split; [discriminate |]. intros H. apply andb_true_iff in H.
    destruct H as [_ H]. apply IH in H. discriminate.
Qed.

Lemma rstrip_slash_length (s : string) :
  (String.length (rstrip_slash s) <= String.length s)%nat.
Proof.
  induction s as [| c s IH]; simpl; [lia |].
  destruct (rstrip_slash s) as [| x r]; [destruct (is_slash c); simpl; lia |].
  simpl in *. lia.
Qed.

Lemma rstrip_slash_app (a n : string) :
  n <> EmptyString -> rstrip_slash n = n -> rstrip_slash (a ++ n) = (a ++ n)%string.
Proof.
  intros Hne Hn. induction a as [| c a IH]; simpl; [exact Hn |].
  rewrite IH. destruct (a ++ n)%string as [| x r] eqn:E; [| reflexivity].
  destruct a; simpl in E; [contradiction | discriminate].
Qed.

Lemma rstrip_slash_idem (s : string) :
  rstrip_slash (rstrip_slash s) = rstrip_slash s.
Proof.
  induction s as [| c s IH]; simpl; [reflexivity |].
  destruct (rstrip_slash s) as [| x r] eqn:E.
  - destruct (is_slash c) eqn:Ec; simpl; [reflexivity | now rewrite Ec].
  - simpl in *. rewrite IH. reflexivity.
Qed.

Lemma rstrip_slash_add_slash (s : string) :
  rstrip_slash (s ++ "/") = rstrip_slash s.
Proof.
  induction s as [| c s IH]; simpl; [reflexivity |]. now rewrite IH.
Qed.

Lemma raw_split_name (n : string) :
  has_no_slash n = true -> raw_split n = (EmptyString, n).
Proof.
  induction n as [| c n IH]; simpl; [reflexivity |].
  intros H. apply andb_true_iff in H. destruct H as [Hc Hn].
  rewrite (IH Hn). apply negb_true_iff in Hc. now rewrite Hc.
Qed.

Lemma raw_split_under (pre n : string) :
  ends_with_slash pre = true -> has_no_slash n = true ->
  raw_split (pre ++ n) = (pre, n).
Proof.
  intros Hpre Hn. induction pre as [| c pre IH]; [discriminate |].
  simpl. destruct pre as [| c' pre'].
  - simpl in *. rewrite (raw_split_name n Hn). unfold is_slash. now rewrite Hpre.
  - rewrite IH by exact Hpre. destruct (is_slash c); reflexivity.
Qed.

Lemma no_final_slash_not_all_slashes (s : string) :
  ends_with_slash s = false -> s <> EmptyString -> all_slashes s = false.
Proof.
  induction s as [| x s IH]; [contradiction |]. intros H _.
  simpl. destruct s as [| y s'].
  - simpl in H. unfold is_slash. now rewrite H.
  - rewrite IH; [apply andb_false_r | exact H | discriminate].
Qed.

(** The prefix [os.path.join] puts before a name. *)
Lemma path_join_under (a : string) :
  a <> EmptyString ->
  exists pre,
    (forall b, path_join a b = (pre ++ b)%string) /\
    ends_with_slash pre = true /\
    (String.length a <= String.length pre)%nat /\
    all_slashes pre = all_slashes a /\
    rstrip_slash pre = rstrip_slash a.
Proof.
  intros Ha.
  assert (Hjoin : forall b, path_join a b =
                    if ends_with_slash a then (a ++ b)%string
                    else (a ++ "/" ++ b)%string).
  { intros b. destruct a; [contradiction | reflexivity]. }
  destruct (ends_with_slash a) eqn:E.
  - exists a. repeat split; auto.
  - exists (a ++ "/")%string. split; [| split; [| split; [| split]]].
    + intros b. now rewrite Hjoin, append_assoc.
    + clear. induction a as [| x s IH]; [reflexivity |].
      simpl. destruct (s ++ "/")%string eqn:Es; [destruct s; discriminate |].
      exact IH.
    + rewrite string_app_length. lia.
    + rewrite all_slashes_app, (no_final_slash_not_all_slashes a E Ha).
      reflexivity.
    + apply rstrip_slash_add_slash.
Qed.

Lemma in_list_In (x : string) (l : list string) :
  in_list x l = true <-> In x l.
Proof.
  unfold in_list. rewrite existsb_exists. split.
  - intros (y & Hy & E). apply String.eqb_eq in E. now subst.
  - intros H. exists x. split; [exact H | apply String.eqb_refl].
Qed.

Lemma accessible_dirs_eq (fs fs' : FS) (p : string) :
  dirs fs' = dirs fs -> accessible fs' p = accessible fs p.
Proof.
  destruct fs as [f d], fs' as [f' d']. simpl. intros ->. reflexivity.
Qed.

Lemma isdir_rstrip (fs : FS) (p : string) :
  all_slashes p = false -> isdir fs (rstrip_slash p) = isdir fs p.
Proof.
  intros Hp.
  assert (Hr : rstrip_slash p <> EmptyString).
  { intros E. apply rstrip_slash_empty in E. congruence. }
  assert (Hra : all_slashes (rstrip_slash p) = false).
  { destruct (all_slashes (rstrip_slash p)) eqn:E; [| reflexivity].
    apply rstrip_slash_empty in E. rewrite rstrip_slash_idem in E. contradiction. }
  unfold isdir. rewrite Hp, Hra, rstrip_slash_idem.
  destruct p; [discriminate |]. destruct (rstrip_slash (String a p)); [contradiction |].
  reflexivity.
Qed.

Lemma prefixes_length (before rest x : string) :
  In x (prefixes_at_slashes before rest) ->
  (String.length x <= String.length before + String.length rest)%nat.
Proof.
  revert before. induction rest as [| c t IH]; intros before Hin; [destruct Hin |].
  simpl in Hin. apply in_app_or in Hin. destruct Hin as [Hin | Hin].
  - destruct (is_slash c); [| destruct Hin].
    destruct Hin as [<- | []]. simpl. lia.
  - apply IH in Hin. rewrite string_app_length in Hin. simpl in *. lia.
Qed.

Lemma dir_chain_length (path d : string) :
  In d (dir_chain path) -> (String.length d <= String.length path)%nat.
Proof.
  unfold dir_chain. rewrite filter_In, in_map_iff.
  intros ((x & <- & Hx) & _). pose proof (rstrip_slash_length x).
  apply in_app_or in Hx. destruct Hx as [Hx | [<- | []]]; [| lia].
  apply prefixes_length in Hx. simpl in Hx. lia.
Qed.

Lemma dir_chain_target (path : string) :
  all_slashes path = false -> In (rstrip_slash path) (dir_chain path).
Proof.
  intros Hp. unfold dir_chain. apply filter_In. split.
  - apply in_map. apply in_or_app. right. now left.
  - apply negb_true_iff, String.eqb_neq. intros E.
    apply rstrip_slash_empty in E. congruence.
Qed.

(** What a successful [makedirs] leaves. *)
Lemma makedirs_success (path : string) (fs : FS) :
  fst (makedirs path fs) = Ok tt ->
  path <> EmptyString /\
  files (snd (makedirs path fs)) = files fs /\
  dirs (snd (makedirs path fs)) = (fun p => dirs fs p || in_list p (dir_chain path)) /\
  isdir (snd (makedirs path fs)) path = true.
Proof.
  unfold makedirs. destruct path as [| c t]; [discriminate |].
  set (path := String c t).
  destruct (find (isfile fs) (dir_chain path)); [discriminate |]. intros _.
  cbn [fst snd files dirs]. split; [discriminate |].
  split; [reflexivity |]. split; [reflexivity |].
  unfold isdir. fold path. cbn [dirs].
  destruct (all_slashes path) eqn:Hs; [reflexivity |].
  destruct (String.eqb (rstrip_slash path) "."); [reflexivity |].
  apply orb_true_iff. right. apply in_list_In. now apply dir_chain_target.
Qed.


Lemma has_no_slash_rstrip (n : string) :
  has_no_slash n = true -> rstrip_slash n = n.
Proof.
  induction n as [| c n IH]; simpl; [reflexivity |].
  intros H. apply andb_true_iff in H. destruct H as [Hc Hn].
  rewrite (IH Hn). apply negb_true_iff in Hc. rewrite Hc. now destruct n.
Qed.

Lemma has_no_slash_not_all_slashes (n : string) :
  has_no_slash n = true -> n <> EmptyString -> all_slashes n = false.
Proof.
  destruct n as [| c n]; [contradiction |]. simpl. intros H _.
  apply andb_true_iff in H. destruct H as [Hc _].
  apply negb_true_iff in Hc. now rewrite Hc.
Qed.

(** Under a directory that exists, a name without slashes that is not a
    directory itself can be written. *)
Lemma accessible_under (fs : FS) (out pre n : string) :
  isdir fs out = true ->
  ends_with_slash pre = true ->
  all_slashes pre = all_slashes out ->
  rstrip_slash pre = rstrip_slash out ->
  has_no_slash n = true -> n <> EmptyString ->
  isdir fs (pre ++ n) = false ->
  accessible fs (pre ++ n) = true.
Proof.
  intros Hout Hpre Hall Hstrip Hn Hne Hnot.
  unfold accessible, path_split. rewrite (raw_split_under pre n Hpre Hn).
  rewrite Hnot. apply String.eqb_neq in Hne. rewrite Hne. simpl.
  destruct (all_slashes pre) eqn:Ep.
  - destruct pre as [| c p]; [discriminate |]. unfold isdir. now rewrite Ep.
  - rewrite Hstrip. symmetry in Hall.
    rewrite (isdir_rstrip fs out Hall), Hout.
    destruct (rstrip_slash out) eqn:E; [| reflexivity]. reflexivity.
Qed.

(** [makedirs] does not turn a path below the output directory into a
    directory. *)
Lemma isdir_below_after_makedirs (fs : FS) (out pre n : string) :
  fst (makedirs out fs) = Ok tt ->
  (String.length out <= String.length pre)%nat ->
  has_no_slash n = true -> n <> EmptyString ->
  isdir (snd (makedirs out fs)) (pre ++ n) = isdir fs (pre ++ n).
Proof.
  intros Hok Hlen Hn Hne.
  destruct (makedirs_success out fs Hok) as (_ & _ & Hdirs & _).
  unfold isdir. rewrite Hdirs.
  rewrite (rstrip_slash_app pre n Hne (has_no_slash_rstrip n Hn)).
  replace (in_list (pre ++ n) (dir_chain out)) with false; [now rewrite orb_false_r |].
  symmetry. destruct (in_list (pre ++ n) (dir_chain out)) eqn:E; [| reflexivity].
  apply in_list_In, dir_chain_length in E. rewrite string_app_length in E.
  destruct n; [contradiction | simpl in E; lia].
Qed.

Lemma index_of_has (name : string) (cols : list string) :
  in_list name cols = true -> exists i, index_of name cols = Some i.
Proof.
  unfold in_list. induction cols as [| c t IH]; simpl; [discriminate |].
  rewrite (String.eqb_sym name c). destruct (String.eqb c name); simpl.
  - intros _. now exists O.
  - intros H. destruct (IH H) as (i & ->). now exists (S i).
Qed.

Lemma index_of_lacks (name : string) (cols : list string) :
  in_list name cols = false -> index_of name cols = None.
Proof.
  unfold in_list. induction cols as [| c t IH]; simpl; [reflexivity |].
  rewrite (String.eqb_sym name c). destruct (String.eqb c name); simpl.
  - discriminate.
  - intros H. now rewrite (IH H).
Qed.

Lemma df_get_lacks (df : DataFrame) (name : string) :
  has_column df name = false -> df_get df name = None.
Proof.
  unfold has_column, df_get. intros H. now rewrite (index_of_lacks _ _ H).
Qed.

Lemma df_get_no_rows (df : DataFrame) (name : string) :
  rows df = [] -> df_get df name = None \/ df_get df name = Some [].
Proof.
  intros H. unfold df_get. rewrite H.
  destruct (index_of name (columns df)); [now right | now left].
Qed.

(** ** Weights of rows whose elapsed time is unknown *)

Lemma row_weight_None : row_weight PyNone = 1.
Proof.
  unfold row_weight, compute_weight.
  destruct (Rlt_dec 0 0) as [H | _]; [lra |]. rewrite Rmult_0_r. apply exp_0.
Qed.

Lemma row_weight_NaN : row_weight NaN = 0.
Proof. reflexivity. Qed.

Lemma row_weight_today : row_weight (Num 0) = 1.
Proof. exact row_weight_None. Qed.

(** A column of results that are all [None] keeps [None], and each of its
    rows gets the weight of an application made today. *)
Lemma series_all_None (res : list (option Z)) (x : num) :
  forallb is_none res = true -> In x (series_of_results res) ->
  x = PyNone /\ row_weight x = 1.
Proof.
  intros Hall Hin. unfold series_of_results in Hin. rewrite Hall in Hin.
  apply in_map_iff in Hin. destruct Hin as (o & <- & _).
  split; [reflexivity | apply row_weight_None].
Qed.

(** When at least one date is readable the unreadable ones become NaN and
    weigh 0. *)
Lemma series_some_parsed (res : list (option Z)) (i : nat) :
  forallb is_none res = false -> nth_error res i = Some None ->
  nth_error (series_of_results res) i = Some NaN /\ row_weight NaN = 0.
Proof.
  intros Hsome Hi. unfold series_of_results. rewrite Hsome.
  split; [| reflexivity]. rewrite nth_error_map, Hi. reflexivity.
Qed.

Lemma config_group_entry (df : list NRow) (k : string) :
  let by_config := fun r => Str (config_id r) in
  let g := group_of by_config df k in
  In k (group_keys by_config df) -> 0 < total_weight g ->
  In (k, set_is_baseline (config_entry g)
           (Rgeb (recruiter_screen_rate (config_entry g))
              (median (map (fun e => recruiter_screen_rate (snd e))
                         (config_loop (groupby by_config df))))))
     (compute_config_metrics df).
Proof.
  intros by_config g Hk Hpos. rewrite compute_config_metrics_unfold.
  fold by_config. apply classify_baselines_In. exists (config_entry g).
  split; [| reflexivity]. rewrite config_loop_spec. apply survivors_In.
  now repeat split.
Qed.

(** X18: a row of weight 0 is counted in its group and adds nothing to the
    four weighted sums from which the metrics are made. *)
Lemma zero_weight_row_contributes_nothing (r : NRow) (l1 l2 : list NRow) :
  weight r = 0 ->
  total_weight (l1 ++ r :: l2) = total_weight (l1 ++ l2) /\
  recruiter_weight (l1 ++ r :: l2) = recruiter_weight (l1 ++ l2) /\
  stage_weight_sum (l1 ++ r :: l2) = stage_weight_sum (l1 ++ l2) /\
  days_weight_sum (l1 ++ r :: l2) = days_weight_sum (l1 ++ l2) /\
  List.length (l1 ++ r :: l2) = S (List.length (l1 ++ l2)).
Proof.
  intros Hw. unfold total_weight, recruiter_weight, stage_weight_sum, days_weight_sum.
  induction l1 as [| x l1 (IH1 & IH2 & IH3 & IH4 & IH5)]; simpl.
  - rewrite Hw. repeat split; try lra.
    + destruct (1 <=? stage_score r)%Z; simpl; [rewrite Hw |]; lra.
    + destruct (days_since_apply r); simpl; lra.
  - rewrite IH1, IH3, IH5. repeat split.
    + destruct (1 <=? stage_score x)%Z; simpl; [now rewrite IH2 | exact IH2].
    + destruct (num_mul (days_since_apply x) (weight x)); simpl;
        [exact IH4 | exact IH4 | now rewrite IH4].
Qed.

Lemma map_nth_seq_id {A : Type} (d : A) (l : list A) :
  map (fun i => nth i l d) (seq 0 (List.length l)) = l.
Proof.
  induction l as [| x l IH]; simpl; [reflexivity |].
  rewrite <- seq_shift, map_map. simpl. now rewrite IH.
Qed.

(** ** Facts about a run *)

Section RunnerFacts.

Variable str_dtype : bool.
Variable today : date.
Variable fromisoformat : string -> option date.
Variable to_float : string -> option R.

Lemma load_tracker_length (raw : DataFrame) (nf : list NRow) :
  load_tracker today fromisoformat to_float raw = Ok nf -> List.length nf = List.length (rows raw).
Proof.
  unfold load_tracker, bind. destruct (days_column today fromisoformat to_float (strip_columns raw)); [| discriminate].
  intros H. inversion H. apply assemble_length.
Qed.

Lemma load_tracker_failure_mode (raw : DataFrame) (nf : list NRow) (r : NRow) :
  load_tracker today fromisoformat to_float raw = Ok nf -> In r nf -> In (failure_mode r) FAILURE_MODES.
Proof.
  unfold load_tracker, bind. destruct (days_column today fromisoformat to_float (strip_columns raw)); [| discriminate].
  intros H Hin. inversion H; subst nf; clear H.
  unfold assemble in Hin. apply in_map_iff in Hin. destruct Hin as (i & <- & _).
  cbn [failure_mode].
  match goal with |- In (nth i (map ?f ?col) _) _ =>
    destruct (Nat.lt_ge_cases i (List.length (map f col))) as [Hlt | Hge];
    [ apply (nth_In _ "UNKNOWN"%string) in Hlt; apply in_map_iff in Hlt;
      destruct Hlt as (x & <- & _);
      exact (coerce_failure_mode_In (Str (fillna "UNKNOWN"%string x)))
    | rewrite nth_overflow by exact Hge; apply unknown_is_a_mode ]
  end.
Qed.

(** C3 (as amended): normalization keeps every input row, and the sum of
    [num_applications] over the configuration output is the number of rows
    whose configuration group has positive total weight; it is at most the
    number of input rows, and equals it when every configuration group has
    positive total weight. *)
Theorem C3_rows_of_surviving_groups_counted (raw : DataFrame) (nf : list NRow) :
  load_tracker today fromisoformat to_float raw = Ok nf ->
  let by_config := fun r => Str (config_id r) in
  let total := num_applications_total (compute_config_metrics nf) in
  List.length nf = List.length (rows raw) /\
  total = List.length
            (filter (fun r => positive (total_weight
                                (group_of by_config nf (config_id r)))) nf) /\
  (total <= List.length (rows raw))%nat /\
  ((forall r, In r nf -> 0 < total_weight (group_of by_config nf (config_id r))) ->
   total = List.length (rows raw)).
Proof.
  intros Hload by_config total.
  pose proof (load_tracker_length _ _ Hload) as Hlen.
  pose proof (config_count nf) as Hcount. fold by_config total in Hcount.
  split; [exact Hlen |]. split; [exact Hcount |]. split.
  - rewrite Hcount, <- Hlen. apply filter_length_le.
  - intros Hall. rewrite Hcount, <- Hlen. f_equal.
    rewrite <- (filter_ext_in (fun _ => true)).
    + clear. induction nf as [| r t IH]; simpl; [reflexivity | now rewrite IH].
    + intros r Hr. unfold positive.
      destruct (Rle_dec _ 0) as [Hle | _]; [| reflexivity].
      specialize (Hall r Hr). lra.
Qed.

(** C6: the tracking-system output has exactly one entry per observed
    [ats_system] value; every entry has the 8 failure-mode keys; the shares
    of a group of positive total weight sum to 1, and the shares of a group
    of total weight [<= 0] are all 0 (the group is kept). *)
Theorem C6_ats_shares (raw : DataFrame) (nf : list NRow) :
  load_tracker today fromisoformat to_float raw = Ok nf ->
  let by_ats := fun r => Str (ats_system r) in
  let out := compute_ats_patterns nf in
  NoDup (map fst out) /\
  (forall a, In a (map fst out) <-> exists r, In r nf /\ ats_system r = a) /\
  (forall a ff, In (a, ff) out ->
     let g := group_of by_ats nf a in
     map fst ff = FAILURE_MODES /\
     (0 < total_weight g -> sum (map snd ff) = 1) /\
     (total_weight g <= 0 -> forall mode x, In (mode, x) ff -> x = 0)).
Proof.
  intros Hload by_ats out.
  assert (Hkeys : map fst out = group_keys by_ats nf).
  { unfold out. rewrite compute_ats_patterns_unfold, map_map. simpl. apply map_id. }
  split; [rewrite Hkeys; apply group_keys_NoDup |]. split.
  - intros a. rewrite Hkeys, group_keys_In. unfold by_ats.
    split; intros (r & Hr & Heq); exists r; split; auto; congruence.
  - intros a ff Hin g. unfold out in Hin.
    rewrite compute_ats_patterns_unfold in Hin. apply in_map_iff in Hin.
    destruct Hin as (k & Heq & _). inversion Heq; subst a ff; clear Heq.
    fold by_ats g. rewrite fail_freq_unfold, !map_map. cbn [fst snd].
    split; [apply map_id |]. split.
    + intros Hpos. destruct (Rlt_dec 0 (total_weight g)) as [_ | Hn]; [| lra].
      rewrite sum_map_div, mode_weights_partition.
      * field. lra.
      * apply FAILURE_MODES_NoDup.
      * intros r Hr. apply (load_tracker_failure_mode raw nf r Hload).
        unfold g, group_of in Hr. apply filter_In in Hr. tauto.
    + intros Hle mode x Hmx. apply in_map_iff in Hmx.
      destruct Hmx as (m & Heq & _).
      destruct (Rlt_dec 0 (total_weight g)) as [Hlt | _]; [lra |]. congruence.
Qed.

Lemma run_phase9_fails (raw : DataFrame) (output_dir : string) (fs : FS) (e : exn) :
  load_tracker today fromisoformat to_float raw = Err e ->
  run_phase9 str_dtype today fromisoformat to_float raw output_dir fs = (Err e, fs).
Proof. intros H. unfold run_phase9. now rewrite H. Qed.

(** When the market rollup raises, the run stops before any file
    operation. *)
Lemma run_phase9_market_fails (raw : DataFrame) (nf : list NRow) (output_dir : string)
    (fs : FS) (e : exn) :
  load_tracker today fromisoformat to_float raw = Ok nf ->
  compute_market_metrics str_dtype today nf = Err e ->
  run_phase9 str_dtype today fromisoformat to_float raw output_dir fs = (Err e, fs).
Proof. intros H1 H2. unfold run_phase9. now rewrite H1, H2. Qed.

Lemma load_tracker_no_rows (raw : DataFrame) :
  rows raw = [] ->
  has_column (strip_columns raw) "applied_date" = true ->
  load_tracker today fromisoformat to_float raw = Ok [].
Proof.
  intros Hrows Hcol.
  assert (Hrows' : rows (strip_columns raw) = []) by exact Hrows.
  assert (Hdates : df_get (strip_columns raw) "applied_date" = Some []).
  { destruct (df_get_no_rows (strip_columns raw) "applied_date" Hrows') as [H | H];
      [| exact H].
    unfold df_get in H. destruct (index_of_has _ _ Hcol) as (i & Hi).
    rewrite Hi in H. discriminate. }
  assert (Hdays : days_column today fromisoformat to_float (strip_columns raw) = Ok []).
  { unfold days_column, days_from_dates. rewrite Hdates.
    destruct (df_get_no_rows (strip_columns raw) "days_since_apply" Hrows') as [-> | ->];
      reflexivity. }
  unfold load_tracker. rewrite Hdays. unfold bind, df_len. rewrite Hrows'.
  reflexivity.
Qed.

(** On a table without rows the market rollup raises when the columns
    have the str type, and reports zeros when they are object columns. *)
Lemma compute_market_metrics_no_rows :
  compute_market_metrics str_dtype today [] =
  if str_dtype then Err TypeError
  else Ok {| overall_recruiter_screen_rate := 0;
             overall_funnel_depth := 0;
             overall_cluster_yield := 0;
             last_updated := isoformat today |}.
Proof.
  unfold compute_market_metrics, weight_sum. destruct str_dtype; [reflexivity |].
  destruct (Rle_dec 0 0) as [_ | Hn]; [reflexivity | lra].
Qed.

(** A table with a header and no data row loads as an empty table; with
    str columns the market rollup then raises at line 220 and the run
    stops with the file system untouched. *)
Lemma empty_table_run_raises (raw : DataFrame) (output_dir : string) (fs : FS) :
  rows raw = [] ->
  has_column (strip_columns raw) "applied_date" = true ->
  str_dtype = true ->
  load_tracker today fromisoformat to_float raw = Ok [] /\
  run_phase9 str_dtype today fromisoformat to_float raw output_dir fs =
  (Err TypeError, fs).
Proof.
  intros Hrows Hcol Hstr.
  pose proof (load_tracker_no_rows raw Hrows Hcol) as Hload.
  split; [exact Hload |].
  apply (run_phase9_market_fails raw [] output_dir fs TypeError Hload).
  rewrite compute_market_metrics_no_rows. now rewrite Hstr.
Qed.

(** C10: when the table has no [applied_date] column and its
    [days_since_apply] column is absent or wholly null, loading raises and
    the run stops with the file system untouched. *)
Theorem C10_missing_dates_abort (raw : DataFrame) (output_dir : string) (fs : FS) :
  has_column (strip_columns raw) "applied_date" = false ->
  (df_get (strip_columns raw) "days_since_apply" = None \/
   exists col, df_get (strip_columns raw) "days_since_apply" = Some col /\
               forallb isnull col = true) ->
  load_tracker today fromisoformat to_float raw = Err AttributeError /\
  run_phase9 str_dtype today fromisoformat to_float raw output_dir fs =
  (Err AttributeError, fs).
Proof.
  intros Hdate Hdays.
  assert (Hload : load_tracker today fromisoformat to_float raw = Err AttributeError).
  { unfold load_tracker, days_column, days_from_dates.
    rewrite (df_get_lacks _ _ Hdate).
    destruct Hdays as [-> | (col & -> & ->)]; reflexivity. }
  split; [exact Hload | now apply run_phase9_fails].
Qed.

(** X20: when the table has no [cluster] column every row gets the
    cluster [UNKNOWN]. *)
Lemma cluster_default_when_column_absent (raw : DataFrame) (nf : list NRow) (r : NRow) :
  has_column (strip_columns raw) "cluster" = false ->
  load_tracker today fromisoformat to_float raw = Ok nf -> In r nf -> cluster r = Str "UNKNOWN".
Proof.
  intros Hcol. unfold load_tracker, bind.
  destruct (days_column today fromisoformat to_float (strip_columns raw)); [| discriminate].
  rewrite (df_get_lacks _ "cluster" Hcol).
  intros H Hin. inversion H; subst nf; clear H.
  unfold assemble in Hin. apply in_map_iff in Hin.
  destruct Hin as (i & <- & Hi). apply in_seq in Hi. cbn [cluster].
  apply nth_repeat_lt. lia.
Qed.

Lemma df_get_length (df : DataFrame) (name : string) (col : list cell) :
  df_get df name = Some col -> List.length col = df_len df.
Proof.
  unfold df_get, df_len. destruct (index_of name (columns df)); [| discriminate].
  intros H. inversion H. apply length_map.
Qed.

Lemma series_of_results_length (res : list (option Z)) :
  List.length (series_of_results res) = List.length res.
Proof.
  unfold series_of_results. destruct (forallb is_none res); apply length_map.
Qed.

Lemma days_column_length (df : DataFrame) (days : list num) :
  days_column today fromisoformat to_float df = Ok days ->
  List.length days = df_len df.
Proof.
  unfold days_column, days_from_dates.
  assert (Hd : match df_get df "applied_date" with
               | Some applied_dates =>
                   Ok (series_of_results
                         (map (compute_days_since today fromisoformat) applied_dates))
               | None => Err AttributeError
               end = Ok days -> List.length days = df_len df).
  { destruct (df_get df "applied_date") as [dates |] eqn:E; [| discriminate].
    intros H. inversion H. rewrite series_of_results_length, length_map.
    now apply (df_get_length df "applied_date"). }
  destruct (df_get df "days_since_apply") as [col |] eqn:E; [| exact Hd].
  destruct (forallb isnull col); [exact Hd |].
  intros H. inversion H. rewrite length_map.
  now apply (df_get_length df "days_since_apply").
Qed.

(** The elapsed-time and weight columns of the normalized table. *)
Lemma load_tracker_weights (raw : DataFrame) (nf : list NRow) :
  load_tracker today fromisoformat to_float raw = Ok nf ->
  exists days,
    days_column today fromisoformat to_float (strip_columns raw) = Ok days /\
    map days_since_apply nf = days /\
    map weight nf = map row_weight days.
Proof.
  unfold load_tracker, bind.
  destruct (days_column today fromisoformat to_float (strip_columns raw))
    as [days |] eqn:Hdays; [| discriminate].
  intros H. inversion H; clear H. exists days. split; [reflexivity |].
  pose proof (days_column_length _ _ Hdays) as Hlen.
  unfold assemble. rewrite !map_map. cbn [days_since_apply weight].
  rewrite <- Hlen. split; [apply map_nth_seq_id |].
  rewrite <- (length_map row_weight days). apply map_nth_seq_id.
Qed.

(** X19: when the elapsed time comes from [applied_date], that is when the
    [days_since_apply] column is absent or wholly null, and at least one
    date is readable, a row whose date is unreadable has elapsed time NaN
    and weight 0. *)
Lemma unreadable_date_among_readable (raw : DataFrame) (nf : list NRow)
    (dates : list cell) (i : nat) (r : NRow) :
  (df_get (strip_columns raw) "days_since_apply" = None \/
   exists col, df_get (strip_columns raw) "days_since_apply" = Some col /\
               forallb isnull col = true) ->
  df_get (strip_columns raw) "applied_date" = Some dates ->
  forallb is_none (map (compute_days_since today fromisoformat) dates) = false ->
  load_tracker today fromisoformat to_float raw = Ok nf ->
  nth_error nf i = Some r ->
  nth_error (map (compute_days_since today fromisoformat) dates) i = Some None ->
  days_since_apply r = NaN /\ weight r = 0.
Proof.
  intros Hno Hdates Hsome Hload Hr Hi.
  destruct (load_tracker_weights raw nf Hload) as (days & Hdays & Hd & Hw).
  unfold days_column, days_from_dates in Hdays.
  assert (Heq : series_of_results
                  (map (compute_days_since today fromisoformat) dates) = days).
  { destruct Hno as [Hno | (col & Hno & Hnull)]; rewrite Hno in Hdays;
      [| rewrite Hnull in Hdays]; rewrite Hdates in Hdays; now inversion Hdays. }
  clear Hdays.
  destruct (series_some_parsed _ i Hsome Hi) as (Hnan & Hzero).
  rewrite Heq in Hnan.
  assert (H1 : nth_error (map days_since_apply nf) i = Some (days_since_apply r))
    by (rewrite nth_error_map, Hr; reflexivity).
  assert (H2 : nth_error (map weight nf) i = Some (weight r))
    by (rewrite nth_error_map, Hr; reflexivity).
  rewrite Hd, Hnan in H1. rewrite Hw, nth_error_map, Hnan in H2.
  simpl in H2. inversion H1. inversion H2. split; [reflexivity |].
  symmetry. assumption.
Qed.

End RunnerFacts.

(** ** Runs on concrete tables

    The tables are read on 2024-09-15 with the YYYY-MM-DD date reader. *)

Lemma load_one_bad_date :
  load_tracker run_date iso_date int_literal one_bad_date =
  Ok [ {| days_since_apply := PyNone; weight := row_weight PyNone;
          stage_score := 1%Z; failure_mode := "UNKNOWN"; config_id := "A";
          cluster := Str "backend"; ats_system := "greenhouse" |} ].
Proof. reflexivity. Qed.

Lemma load_good_and_bad_date :
  load_tracker run_date iso_date int_literal good_and_bad_date =
  Ok [ {| days_since_apply := Num 0; weight := row_weight (Num 0);
          stage_score := 1%Z; failure_mode := "UNKNOWN"; config_id := "A";
          cluster := Str "backend"; ats_system := "greenhouse" |};
       {| days_since_apply := NaN; weight := row_weight NaN;
          stage_score := 0%Z; failure_mode := "UNKNOWN"; config_id := "B";
          cluster := Str "backend"; ats_system := "lever" |} ].
Proof. reflexivity. Qed.

Lemma load_blank_cluster :
  load_tracker run_date iso_date int_literal blank_cluster =
  Ok [ {| days_since_apply := Num 0; weight := row_weight (Num 0);
          stage_score := 1%Z; failure_mode := "UNKNOWN"; config_id := "A";
          cluster := NA; ats_system := "UNKNOWN" |} ].
Proof. reflexivity. Qed.

(** C2: on the table [one_bad_date], whose only row has an unreadable
    [applied_date] and no [days_since_apply], the row's elapsed time is
    [None], its weight is 1 (not 0), and it carries its configuration's
    weighted metrics: recruiter screen rate 1 and funnel depth 1. *)
Theorem C2_lone_unreadable_date_weighs_one :
  iso_date "not-a-date" = None /\
  exists r,
    load_tracker run_date iso_date int_literal one_bad_date = Ok [r] /\
    days_since_apply r = PyNone /\ weight r = 1 /\
    exists m, In ("A"%string, m) (compute_config_metrics [r]) /\
      recruiter_screen_rate m = 1 /\ funnel_depth m = 1 /\
      num_applications m = 1%nat.
Proof.
  split; [reflexivity |]. eexists. split; [apply load_one_bad_date |].
  split; [reflexivity |]. split; [apply row_weight_None |].
  eexists. split.
  - apply config_group_entry.
    + apply group_keys_In. eexists. split; [left; reflexivity | reflexivity].
    + unfold group_of, total_weight. simpl. rewrite row_weight_None. lra.
  - unfold group_of, config_entry, recruiter_weight, stage_weight_sum, total_weight.
    simpl. rewrite row_weight_None. repeat split; field.
Qed.

(** C7: on the table [blank_cluster], whose [cluster] column is present
    with a blank cell, the normalized row keeps a missing [cluster] (while
    its blank [ats_system] becomes [UNKNOWN]), and the row is in no group of
    the cluster rollup. *)
Theorem C7_blank_cluster_stays_missing :
  exists r,
    load_tracker run_date iso_date int_literal blank_cluster = Ok [r] /\
    cluster r = NA /\ ats_system r = "UNKNOWN"%string /\
    compute_cluster_metrics [r] = [].
Proof.
  eexists. split; [apply load_blank_cluster |].
  split; [reflexivity |]. split; reflexivity.
Qed.

(** C3, refuted as stated: on the table [good_and_bad_date] the second
    row's configuration has total weight 0 and is left out, so the
    [num_applications] of the output sum to 1 while the table has 2 rows. *)
Lemma C3_counterexample :
  exists nf,
    load_tracker run_date iso_date int_literal good_and_bad_date = Ok nf /\
    List.length (rows good_and_bad_date) = 2%nat /\
    num_applications_total (compute_config_metrics nf) = 1%nat /\
    num_applications_total (compute_config_metrics nf) <>
    List.length (rows good_and_bad_date).
Proof.
  eexists. split; [apply load_good_and_bad_date |]. split; [reflexivity |].
  match goal with |- ?a = 1%nat /\ _ => assert (Ha : a = 1%nat) end.
  { rewrite config_count. unfold group_of, total_weight, positive. simpl.
    rewrite row_weight_today, row_weight_NaN.
    destruct (Rle_dec (1 + 0) 0) as [Hle | _]; [lra |].
    destruct (Rle_dec (0 + 0) 0) as [_ | Hn]; [reflexivity | lra]. }
  split; [exact Ha |]. rewrite Ha. simpl. discriminate.
Qed.

(** ** The theorems at concrete inputs *)

Lemma sample_group_weight :
  0 < total_weight (group_of (fun r => Str (config_id r)) [sample_row] "A").
Proof. unfold group_of, total_weight. simpl. lra. Qed.

Lemma sample_group_key :
  In "A"%string (group_keys (fun r => Str (config_id r)) [sample_row]).
Proof.
  apply group_keys_In. exists sample_row. split; [now left | reflexivity].
Qed.

Lemma C3_rows_of_surviving_groups_counted_witness :
  exists nf,
    load_tracker run_date iso_date int_literal one_bad_date = Ok nf /\
    List.length nf = List.length (rows one_bad_date) /\
    num_applications_total (compute_config_metrics nf) =
    List.length (rows one_bad_date).
Proof.
  eexists. split; [apply load_one_bad_date |].
  destruct (C3_rows_of_surviving_groups_counted run_date iso_date int_literal
              one_bad_date _ load_one_bad_date) as (Hlen & _ & _ & Hall).
  split; [exact Hlen |]. apply Hall.
  intros r [<- | []]. unfold group_of, total_weight. simpl.
  rewrite row_weight_None. lra.
Defined.

Lemma C4_baseline_iff_at_or_above_median_witness :
  (exists m, In ("A"%string, m) (compute_config_metrics [sample_row]) /\
     (is_baseline m = true <->
      recruiter_screen_rate m >=
      median (map (fun e => recruiter_screen_rate (snd e))
                (compute_config_metrics [sample_row])))) /\
  compute_config_metrics [] = [].
Proof.
  split.
  - eexists. split.
    + apply (config_group_entry [sample_row] "A" sample_group_key sample_group_weight).
    + destruct (C4_baseline_iff_at_or_above_median [sample_row]) as (Hiff & _).
      apply (Hiff "A"%string).
      apply (config_group_entry [sample_row] "A" sample_group_key sample_group_weight).
  - destruct (C4_baseline_iff_at_or_above_median []) as (_ & Hnone).
    apply Hnone. intros k [].
Defined.

Lemma sample_cluster_key : In "backend"%string (group_keys cluster [sample_row]).
Proof.
  apply group_keys_In. exists sample_row. split; [now left | reflexivity].
Qed.

Lemma sample_cluster_weight :
  0 < total_weight (group_of cluster [sample_row] "backend").
Proof. unfold group_of, total_weight. simpl. lra. Qed.

Lemma C5_zero_weight_groups_omitted_witness :
  (exists m, In ("A"%string, m) (compute_config_metrics [sample_row]) /\
     recruiter_screen_rate m = 1 /\ num_applications m = 1%nat) /\
  (exists m, In ("backend"%string, m) (compute_cluster_metrics [sample_row]) /\
     cl_recruiter_screen_rate m = 1 /\ cl_funnel_depth m = 1 /\
     cl_cluster_yield m = 0.7 /\ cl_num_applications m = 1%nat).
Proof.
  destruct (C5_zero_weight_groups_omitted [sample_row])
    as (_ & _ & _ & _ & Hcfg & Hcl).
  split.
  - destruct (Hcfg "A"%string sample_group_key) as (_ & Hpos).
    destruct (Hpos sample_group_weight) as (m & Hin & _ & Hrate & _ & _ & Hnum).
    exists m. split; [exact Hin |]. split; [| exact Hnum].
    rewrite Hrate. unfold group_of, recruiter_weight, total_weight. simpl. field.
  - destruct (Hcl "backend"%string sample_cluster_key) as (_ & Hpos).
    destruct (Hpos sample_cluster_weight)
      as (m & Hin & _ & Hrate & Hdepth & Hyield & Hnum).
    exists m. split; [exact Hin |].
    rewrite Hrate, Hdepth, Hyield.
    unfold group_of, recruiter_weight, stage_weight_sum, total_weight. simpl.
    split; [field |]. split; [field |]. split; [lra | exact Hnum].
Defined.

Lemma C6_ats_shares_witness :
  exists nf ff,
    load_tracker run_date iso_date int_literal one_bad_date = Ok nf /\
    In ("greenhouse"%string, ff) (compute_ats_patterns nf) /\
    map fst ff = FAILURE_MODES /\ sum (map snd ff) = 1.
Proof.
  eexists. eexists. split; [apply load_one_bad_date |].
  destruct (C6_ats_shares run_date iso_date int_literal one_bad_date _
              load_one_bad_date) as (_ & _ & Hshares).
  assert (Hin : In ("greenhouse"%string,
                    fail_freq (group_of (fun r => Str (ats_system r))
                      [ {| days_since_apply := PyNone; weight := row_weight PyNone;
                           stage_score := 1%Z; failure_mode := "UNKNOWN";
                           config_id := "A"; cluster := Str "backend";
                           ats_system := "greenhouse" |} ] "greenhouse"))
                   (compute_ats_patterns
                      [ {| days_since_apply := PyNone; weight := row_weight PyNone;
                           stage_score := 1%Z; failure_mode := "UNKNOWN";
                           config_id := "A"; cluster := Str "backend";
                           ats_system := "greenhouse" |} ])).
  { rewrite compute_ats_patterns_unfold. left. reflexivity. }
  split; [exact Hin |].
  destruct (Hshares _ _ Hin) as (Hkeys & Hsum & _).
  split; [exact Hkeys |]. apply Hsum.
  unfold group_of, total_weight. simpl. rewrite row_weight_None. lra.
Defined.

(** C8: on the table [header_only], which has the required header and no
    data row, read with str columns as pandas 3 reads it, the three grouped
    rollups are empty but the market rollup, the only one without an
    emptiness guard, raises the type error of line 220: the run stops with
    no file written and no directory made.  With object columns the same
    table gives the zeroed market document. *)
Theorem C8_header_only_run_raises :
  load_tracker run_date iso_date int_literal header_only = Ok [] /\
  compute_config_metrics [] = [] /\
  compute_cluster_metrics [] = [] /\
  compute_ats_patterns [] = [] /\
  compute_market_metrics true run_date [] = Err TypeError /\
  run_phase9 true run_date iso_date int_literal header_only "out" empty_fs =
    (Err TypeError, empty_fs) /\
  compute_market_metrics false run_date [] =
    Ok {| overall_recruiter_screen_rate := 0;
          overall_funnel_depth := 0;
          overall_cluster_yield := 0;
          last_updated := "2024-09-15" |}.
Proof.
  destruct (empty_table_run_raises true run_date iso_date int_literal header_only
              "out" empty_fs eq_refl eq_refl eq_refl) as (Hload & Hrun).
  split; [exact Hload |]. split; [reflexivity |]. split; [reflexivity |].
  split; [reflexivity |].
  split; [exact (compute_market_metrics_no_rows true run_date) |].
  split; [exact Hrun |].
  exact (compute_market_metrics_no_rows false run_date).
Qed.

Lemma C10_missing_dates_abort_witness :
  has_column (strip_columns no_dates) "applied_date" = false /\
  df_get (strip_columns no_dates) "days_since_apply" = None /\
  run_phase9 true run_date iso_date int_literal no_dates "out" empty_fs =
  (Err AttributeError, empty_fs).
Proof.
  split; [reflexivity |]. split; [reflexivity |].
  destruct (C10_missing_dates_abort true run_date iso_date int_literal no_dates "out"
              empty_fs eq_refl (or_introl eq_refl)) as (_ & Hrun).
  exact Hrun.
Defined.

(** ** Further properties of the decay model *)

Lemma LAMBDA_pos : 0 < LAMBDA.
Proof.
  unfold LAMBDA, HALF_LIFE_DAYS.
  assert (H : 0 < ln 2) by (rewrite <- ln_1; apply ln_increasing; lra).
  apply Rdiv_lt_0_compat; lra.
Qed.

Lemma exp_le_mono (x y : R) : x <= y -> exp x <= exp y.
Proof.
  intros [H | ->]; [left; now apply exp_increasing | right; reflexivity].
Qed.

Lemma compute_weight_le1 (x : num) : compute_weight x <= 1.
Proof.
  destruct x as [| | d]; simpl; try lra.
  destruct (Rlt_dec d 0) as [Hneg | Hpos]; [lra |].
  rewrite <- exp_0. apply exp_le_mono.
  pose proof LAMBDA_pos. nra.
Qed.

Lemma row_weight_range (x : num) : 0 <= row_weight x <= 1.
Proof.
  unfold row_weight. split; [apply compute_weight_ge0 | apply compute_weight_le1].
Qed.

(** X1: every weight lies in [0, 1], for [compute_weight] on any elapsed
    time, known or unknown, and for the weight line 116 gives a row. *)
Theorem X1_weight_range (x : num) :
  0 <= compute_weight x <= 1 /\ 0 <= row_weight x <= 1.
Proof.
  split; [split; [apply compute_weight_ge0 | apply compute_weight_le1] |].
  apply row_weight_range.
Qed.

(** X2: the weight never grows with the elapsed time: for [d1 <= d2], of
    either sign, the weight at [d2] is at most the weight at [d1]. *)
Theorem X2_weight_decreasing (d1 d2 : R) :
  d1 <= d2 -> compute_weight (Num d2) <= compute_weight (Num d1).
Proof.
  intros H12. destruct (Rlt_dec d1 0) as [Hneg | Hpos].
  - rewrite (compute_weight_neg d1 Hneg). apply compute_weight_le1.
  - unfold compute_weight.
    destruct (Rlt_dec d2 0); [lra |]. destruct (Rlt_dec d1 0); [lra |].
    apply exp_le_mono. pose proof LAMBDA_pos. nra.
Qed.

Lemma X2_weight_decreasing_witness :
  0 <= 60 /\ compute_weight (Num 60) <= compute_weight (Num 0).
Proof.
  split; [lra |]. apply (X2_weight_decreasing 0 60). lra.
Defined.

(** ** Ranges of the rollups *)

Lemma sample_row_well_formed : Forall well_formed [sample_row].
Proof.
  constructor; [| constructor]. unfold well_formed. simpl.
  split; [lra |]. split; [lia | apply unknown_is_a_mode].
Qed.

Lemma group_of_incl (key : NRow -> cell) (df : list NRow) (k : string) (r : NRow) :
  In r (group_of key df k) -> In r df /\ key r = Str k.
Proof.
  unfold group_of. rewrite filter_In. intros [Hin Heq]. split; [exact Hin |].
  destruct (key r) as [| s]; simpl in Heq; [discriminate |].
  apply String.eqb_eq in Heq. now subst.
Qed.

Lemma group_well_formed (key : NRow -> cell) (df : list NRow) (k : string) :
  Forall well_formed df -> Forall well_formed (group_of key df k).
Proof.
  intros H. rewrite Forall_forall in *. intros r Hr.
  apply H. now apply (group_of_incl key df k).
Qed.

Lemma total_weight_nonneg (g : list NRow) :
  Forall well_formed g -> 0 <= total_weight g.
Proof.
  unfold total_weight. induction 1 as [| r g (Hw & _) _ IH]; simpl; lra.
Qed.

Lemma recruiter_weight_range (g : list NRow) :
  Forall well_formed g -> 0 <= recruiter_weight g <= total_weight g.
Proof.
  unfold recruiter_weight, total_weight.
  induction 1 as [| r g (Hw & _) _ IH]; simpl; [lra |].
  destruct (1 <=? stage_score r)%Z; simpl; lra.
Qed.

Lemma stage_weight_sum_range (g : list NRow) :
  Forall well_formed g -> 0 <= stage_weight_sum g <= 4 * total_weight g.
Proof.
  unfold stage_weight_sum, total_weight.
  induction 1 as [| r g (Hw & Hs & _) _ IH]; simpl; [lra |].
  assert (H0 : 0 <= IZR (stage_score r)) by (apply IZR_le; lia).
  assert (H4 : IZR (stage_score r) <= 4) by (apply IZR_le; lia).
  nra.
Qed.

Lemma mode_weight_range (g : list NRow) (mode : string) :
  Forall well_formed g -> 0 <= mode_weight g mode <= total_weight g.
Proof.
  unfold mode_weight, total_weight.
  induction 1 as [| r g (Hw & _) _ IH]; simpl; [lra |].
  destruct (String.eqb (failure_mode r) mode); simpl; lra.
Qed.

Lemma ratio_range (a b c : R) : 0 < b -> 0 <= a <= c * b -> 0 <= a / b <= c.
Proof.
  intros Hb [H0 Hc]. split.
  - apply Rmult_le_pos; [exact H0 | left; now apply Rinv_0_lt_compat].
  - apply (Rmult_le_reg_r b); [exact Hb |]. unfold Rdiv.
    rewrite Rmult_assoc, Rinv_l by lra. lra.
Qed.

Lemma total_weight_positive_nonempty (g : list NRow) :
  0 < total_weight g -> (1 <= List.length g)%nat.
Proof.
  destruct g; unfold total_weight; simpl; [lra | lia].
Qed.

(** X3: over well-formed rows, every entry of the configuration rollup has
    a recruiter screen rate in [0, 1], a funnel depth in [0, 4], and counts
    at least one and at most all rows of the table. *)
Theorem X3_config_metrics_in_range (df : list NRow) (k : string) (m : ConfigMetrics) :
  Forall well_formed df ->
  In (k, m) (compute_config_metrics df) ->
  0 <= recruiter_screen_rate m <= 1 /\
  0 <= funnel_depth m <= 4 /\
  (1 <= num_applications m <= List.length df)%nat.
Proof.
  intros Hwf Hin. rewrite compute_config_metrics_unfold in Hin.
  apply classify_baselines_In in Hin. destruct Hin as (m0 & Hin & ->).
  rewrite config_loop_spec in Hin. apply survivors_In in Hin.
  destruct Hin as (_ & Hpos & ->). cbn [set_is_baseline config_entry
    recruiter_screen_rate funnel_depth num_applications].
  set (g := group_of (fun r => Str (config_id r)) df k) in *.
  pose proof (group_well_formed (fun r => Str (config_id r)) df k Hwf) as Hg.
  fold g in Hg. split; [| split].
  - apply ratio_range; [exact Hpos |]. rewrite Rmult_1_l.
    now apply recruiter_weight_range.
  - apply ratio_range; [exact Hpos |]. now apply stage_weight_sum_range.
  - split; [now apply total_weight_positive_nonempty |].
    unfold g, group_of. apply filter_length_le.
Qed.

Lemma X3_config_metrics_in_range_witness :
  exists m, In ("A"%string, m) (compute_config_metrics [sample_row]) /\
    0 <= recruiter_screen_rate m <= 1 /\ 0 <= funnel_depth m <= 4.
Proof.
  eexists. split.
  - apply (config_group_entry [sample_row] "A" sample_group_key sample_group_weight).
  - destruct (X3_config_metrics_in_range [sample_row] "A" _ sample_row_well_formed
                (config_group_entry [sample_row] "A" sample_group_key
                   sample_group_weight)) as (Hr & Hd & _).
    split; [exact Hr | exact Hd].
Defined.

(** X4: over well-formed rows, every entry of the cluster rollup has its
    rate in [0, 1] and its depth in [0, 4]; its cluster yield is
    [0.6 * rate + 0.4 * (depth / 4)] and lies in [0, 1]. *)
Theorem X4_cluster_metrics_in_range (df : list NRow) (k : string) (m : ClusterMetrics) :
  Forall well_formed df ->
  In (k, m) (compute_cluster_metrics df) ->
  0 <= cl_recruiter_screen_rate m <= 1 /\
  0 <= cl_funnel_depth m <= 4 /\
  cl_cluster_yield m =
    0.6 * cl_recruiter_screen_rate m + 0.4 * (cl_funnel_depth m / 4) /\
  0 <= cl_cluster_yield m <= 1 /\
  (1 <= cl_num_applications m <= List.length df)%nat.
Proof.
  intros Hwf Hin. rewrite compute_cluster_metrics_unfold, cluster_loop_spec in Hin.
  apply survivors_In in Hin. destruct Hin as (_ & Hpos & ->).
  set (g := group_of cluster df k) in *.
  pose proof (group_well_formed cluster df k Hwf) as Hg. fold g in Hg.
  assert (Hr : 0 <= recruiter_weight g / total_weight g <= 1).
  { apply ratio_range; [exact Hpos |]. rewrite Rmult_1_l.
    now apply recruiter_weight_range. }
  assert (Hd : 0 <= stage_weight_sum g / total_weight g <= 4).
  { apply ratio_range; [exact Hpos |]. now apply stage_weight_sum_range. }
  unfold cluster_entry. cbn [cl_recruiter_screen_rate cl_funnel_depth
    cl_cluster_yield cl_num_applications].
  split; [exact Hr |]. split; [exact Hd |]. split; [reflexivity |].
  split; [lra |].
  split; [now apply total_weight_positive_nonempty |].
  unfold g, group_of. apply filter_length_le.
Qed.

Lemma sample_cluster_entry :
  In ("backend"%string, cluster_entry (group_of cluster [sample_row] "backend"))
     (compute_cluster_metrics [sample_row]).
Proof.
  rewrite compute_cluster_metrics_unfold, cluster_loop_spec. apply survivors_In.
  split; [| split; [| reflexivity]].
  - apply group_keys_In. exists sample_row. split; [now left | reflexivity].
  - unfold group_of, total_weight. simpl. lra.
Qed.

Lemma X4_cluster_metrics_in_range_witness :
  exists m, In ("backend"%string, m) (compute_cluster_metrics [sample_row]) /\
    cl_cluster_yield m =
      0.6 * cl_recruiter_screen_rate m + 0.4 * (cl_funnel_depth m / 4) /\
    0 <= cl_cluster_yield m <= 1.
Proof.
  eexists. split; [apply sample_cluster_entry |].
  destruct (X4_cluster_metrics_in_range [sample_row] "backend" _
              sample_row_well_formed sample_cluster_entry)
    as (_ & _ & Hy & Hr & _).
  split; [exact Hy | exact Hr].
Defined.

(** X5: over well-formed rows the market rollup returns a document unless
    the table has no rows and its columns have the str type, in which case
    it raises the type error of line 220.  The document always carries the
    run date; its rate lies in [0, 1], its depth in [0, 4], and its yield is
    [0.6 * rate + 0.4 * (depth / 4)], in [0, 1]; when the total weight is
    [<= 0] the three numbers are 0. *)
Theorem X5_market_metrics_in_range (str_dtype : bool) (today : date)
    (df : list NRow) :
  Forall well_formed df ->
  match compute_market_metrics str_dtype today df with
  | Err e => e = TypeError /\ df = [] /\ str_dtype = true
  | Ok m =>
      last_updated m = isoformat today /\
      0 <= overall_recruiter_screen_rate m <= 1 /\
      0 <= overall_funnel_depth m <= 4 /\
      overall_cluster_yield m =
        0.6 * overall_recruiter_screen_rate m + 0.4 * (overall_funnel_depth m / 4) /\
      0 <= overall_cluster_yield m <= 1 /\
      (total_weight df <= 0 ->
       overall_recruiter_screen_rate m = 0 /\ overall_funnel_depth m = 0 /\
       overall_cluster_yield m = 0)
  end.
Proof.
  intros Hwf. unfold compute_market_metrics.
  assert (Hsum : weight_sum str_dtype df = PyFloat (total_weight df) \/
                 (weight_sum str_dtype df = PyText "" /\ df = [] /\ str_dtype = true)).
  { unfold weight_sum. destruct df; [| now left].
    destruct str_dtype; [right; repeat split | left; reflexivity]. }
  destruct Hsum as [-> | (-> & Hdf & Hstr)]; [| repeat split; assumption].
  destruct (Rle_dec (total_weight df) 0) as [Hle | Hgt];
    cbn [last_updated overall_recruiter_screen_rate overall_funnel_depth
         overall_cluster_yield].
  - repeat split; lra.
  - assert (Hpos : 0 < total_weight df) by lra.
    assert (Hr : 0 <= recruiter_weight df / total_weight df <= 1).
    { apply ratio_range; [exact Hpos |]. rewrite Rmult_1_l.
      now apply recruiter_weight_range. }
    assert (Hd : 0 <= stage_weight_sum df / total_weight df <= 4).
    { apply ratio_range; [exact Hpos |]. now apply stage_weight_sum_range. }
    split; [reflexivity |]. split; [exact Hr |]. split; [exact Hd |].
    split; [reflexivity |]. split; [lra |]. intros Hle. lra.
Qed.

Lemma sample_market_metrics (str_dtype : bool) :
  exists m, compute_market_metrics str_dtype run_date [sample_row] = Ok m.
Proof.
  unfold compute_market_metrics, weight_sum.
  destruct (Rle_dec (total_weight [sample_row]) 0); eexists; reflexivity.
Qed.

Lemma X5_market_metrics_in_range_witness :
  exists m,
    compute_market_metrics true run_date [sample_row] = Ok m /\
    last_updated m = "2024-09-15"%string /\
    0 <= overall_cluster_yield m <= 1.
Proof.
  destruct (sample_market_metrics true) as (m & Hm).
  exists m. split; [exact Hm |].
  pose proof (X5_market_metrics_in_range true run_date [sample_row]
                sample_row_well_formed) as H.
  rewrite Hm in H. destruct H as (Hdate & _ & _ & _ & Hy & _).
  split; [exact Hdate | exact Hy].
Defined.

(** X6: over well-formed rows, every failure-mode share of every tracking
    system lies in [0, 1]. *)
Theorem X6_ats_share_in_range (df : list NRow) (a mode : string)
    (ff : list (string * R)) (x : R) :
  Forall well_formed df ->
  In (a, ff) (compute_ats_patterns df) -> In (mode, x) ff ->
  0 <= x <= 1.
Proof.
  intros Hwf Hin Hx. rewrite compute_ats_patterns_unfold in Hin.
  apply in_map_iff in Hin. destruct Hin as (k & Heq & _).
  inversion Heq; subst a ff; clear Heq.
  rewrite fail_freq_unfold in Hx. apply in_map_iff in Hx.
  destruct Hx as (m0 & Heq & _). inversion Heq; subst mode x; clear Heq.
  set (g := group_of (fun r => Str (ats_system r)) df k).
  pose proof (group_well_formed (fun r => Str (ats_system r)) df k Hwf) as Hg.
  fold g in Hg.
  destruct (Rlt_dec 0 (total_weight g)) as [Hpos | _]; [| lra].
  apply ratio_range; [exact Hpos |]. rewrite Rmult_1_l.
  now apply mode_weight_range.
Qed.

Lemma X6_ats_share_in_range_witness :
  exists ff x,
    In ("greenhouse"%string, ff) (compute_ats_patterns [sample_row]) /\
    In ("UNKNOWN"%string, x) ff /\ 0 <= x <= 1.
Proof.
  assert (Hin : In ("greenhouse"%string,
                    fail_freq (group_of (fun r => Str (ats_system r))
                                 [sample_row] "greenhouse"))
                   (compute_ats_patterns [sample_row])).
  { rewrite compute_ats_patterns_unfold. left. reflexivity. }
  assert (Hx : In ("UNKNOWN"%string,
                   if Rlt_dec 0 (total_weight (group_of (fun r => Str (ats_system r))
                                                 [sample_row] "greenhouse"))
                   then mode_weight (group_of (fun r => Str (ats_system r))
                                       [sample_row] "greenhouse") "UNKNOWN"
                        / total_weight (group_of (fun r => Str (ats_system r))
                                          [sample_row] "greenhouse")
                   else 0)
                  (fail_freq (group_of (fun r => Str (ats_system r))
                                [sample_row] "greenhouse"))).
  { rewrite fail_freq_unfold. apply in_map_iff. exists "UNKNOWN"%string.
    split; [reflexivity | apply unknown_is_a_mode]. }
  eexists. eexists. split; [exact Hin |]. split; [exact Hx |].
  exact (X6_ats_share_in_range [sample_row] "greenhouse" "UNKNOWN" _ _
           sample_row_well_formed Hin Hx).
Defined.

(** ** The median and the baselines *)

Lemma insert_R_perm (x : R) (l : list R) : Permutation (insert_R x l) (x :: l).
Proof.
  induction l as [| h t IH]; simpl; [reflexivity |].
  destruct (Rle_dec x h); [reflexivity |]. rewrite IH. apply perm_swap.
Qed.

Lemma sort_R_perm (l : list R) : Permutation (sort_R l) l.
Proof.
  induction l as [| h t IH]; simpl; [reflexivity |].
  rewrite insert_R_perm. now constructor.
Qed.

Lemma median_bounded (P : R -> Prop) (l : list R) :
  l <> [] -> (forall y, In y l -> P y) ->
  (forall a b, P a -> P b -> P ((a + b) / 2)) ->
  P (median l).
Proof.
  intros Hne Hall Hmid. unfold median.
  pose proof (sort_R_perm l) as Hperm.
  assert (Hlen : List.length (sort_R l) = List.length l)
    by (now apply Permutation_length).
  assert (Hpos : (0 < List.length (sort_R l))%nat).
  { rewrite Hlen. destruct l; [contradiction | simpl; lia]. }
  assert (Hnth : forall i, (i < List.length (sort_R l))%nat ->
                   P (nth i (sort_R l) 0)).
  { intros i Hi. apply Hall. apply (Permutation_in _ Hperm). now apply nth_In. }
  set (n := List.length (sort_R l)) in *.
  destruct (Nat.even n) eqn:Heven.
  - apply Nat.even_spec in Heven. destruct Heven as (h & Hh).
    assert (Hh1 : (n / 2 = h)%nat) by (rewrite Hh, Nat.mul_comm; now apply Nat.div_mul).
    apply Hmid; apply Hnth; lia.
  - apply Hnth. apply Nat.div_lt; lia.
Qed.

Lemma median_le (l : list R) (hi : R) :
  l <> [] -> (forall y, In y l -> y <= hi) -> median l <= hi.
Proof.
  intros Hne Hall. apply (median_bounded (fun y => y <= hi) l Hne Hall).
  intros a b Ha Hb. lra.
Qed.

Lemma median_ge (l : list R) (lo : R) :
  l <> [] -> (forall y, In y l -> lo <= y) -> lo <= median l.
Proof.
  intros Hne Hall. apply (median_bounded (fun y => lo <= y) l Hne Hall).
  intros a b Ha Hb. lra.
Qed.

Lemma max_exists (l : list R) :
  l <> [] -> exists x, In x l /\ forall y, In y l -> y <= x.
Proof.
  induction l as [| a l IH]; [contradiction |]. intros _.
  destruct l as [| b l].
  - exists a. split; [now left |]. intros y [<- | []]. lra.
  - destruct IH as (x & Hx & Hmax); [discriminate |].
    destruct (Rle_dec a x) as [Hle | Hgt].
    + exists x. split; [now right |]. intros y [<- | Hy]; [exact Hle | now apply Hmax].
    + exists a. split; [now left |]. intros y [<- | Hy]; [lra |].
      specialize (Hmax y Hy). lra.
Qed.

(** X7: when the configuration rollup is not empty, at least one
    configuration is a baseline: one whose rate is the largest is at or
    above the median. *)
Theorem X7_some_config_is_baseline (df : list NRow) :
  compute_config_metrics df <> [] ->
  exists k m, In (k, m) (compute_config_metrics df) /\ is_baseline m = true /\
    forall k' m', In (k', m') (compute_config_metrics df) ->
      recruiter_screen_rate m' <= recruiter_screen_rate m.
Proof.
  rewrite compute_config_metrics_unfold.
  set (cm := config_loop (groupby (fun r => Str (config_id r)) df)).
  intros Hne.
  assert (Hcm : cm <> []) by (intros E; apply Hne; now rewrite E).
  set (rates := map (fun e => recruiter_screen_rate (snd e)) cm).
  assert (Hrates : rates <> [])
    by (unfold rates; destruct cm; [contradiction | discriminate]).
  destruct (max_exists rates Hrates) as (x & Hx & Hmax).
  unfold rates in Hx. apply in_map_iff in Hx. destruct Hx as ([k m0] & Hrate & Hin).
  simpl in Hrate. subst x.
  exists k, (set_is_baseline m0 (Rgeb (recruiter_screen_rate m0) (median rates))).
  split; [apply classify_baselines_In; now exists m0 |]. split.
  - cbn [set_is_baseline is_baseline]. unfold Rgeb.
    destruct (Rle_dec (median rates) (recruiter_screen_rate m0)) as [_ | Hn];
      [reflexivity |].
    exfalso. apply Hn. now apply median_le.
  - intros k' m' Hin'. apply classify_baselines_In in Hin'.
    destruct Hin' as (m1 & Hin1 & ->). cbn [set_is_baseline recruiter_screen_rate].
    apply Hmax. unfold rates. apply in_map_iff. now exists (k', m1).
Qed.

Lemma X7_some_config_is_baseline_witness :
  compute_config_metrics [sample_row] <> [] /\
  exists k m, In (k, m) (compute_config_metrics [sample_row]) /\
    is_baseline m = true.
Proof.
  assert (Hne : compute_config_metrics [sample_row] <> []).
  { intros E.
    pose proof (config_group_entry [sample_row] "A" sample_group_key
                  sample_group_weight) as Hin.
    rewrite E in Hin. destruct Hin. }
  split; [exact Hne |].
  destruct (X7_some_config_is_baseline [sample_row] Hne) as (k & m & Hin & Hb & _).
  now exists k, m.
Defined.

(** ** Order of the keys in the output maps *)

Lemma string_leb_trans (a b c : string) :
  String.leb a b = true -> String.leb b c = true -> String.leb a c = true.
Proof.
  unfold String.leb. revert b c.
  induction a as [| x a IH]; intros b c.
  - destruct c; reflexivity.
  - destruct b as [| y b]; [discriminate |].
    destruct c as [| z c]; [simpl; destruct (Ascii.compare x y); discriminate |].
    simpl. unfold Ascii.compare.
    destruct (N.compare_spec (N_of_ascii x) (N_of_ascii y)) as [Exy | Lxy | Gxy];
      destruct (N.compare_spec (N_of_ascii y) (N_of_ascii z)) as [Eyz | Lyz | Gyz];
      intros Hab Hbc; try discriminate.
    + rewrite Exy, Eyz, N.compare_refl. now apply (IH b c).
    + rewrite Exy. apply N.compare_lt_iff in Lyz. now rewrite Lyz.
    + rewrite <- Eyz. apply N.compare_lt_iff in Lxy. now rewrite Lxy.
    + assert (H : (N_of_ascii x < N_of_ascii z)%N) by lia.
      apply N.compare_lt_iff in H. now rewrite H.
Qed.

Lemma insert_key_sorted (k : string) (l : list string) :
  StronglySorted (fun a b => String.leb a b = true) l ->
  StronglySorted (fun a b => String.leb a b = true) (insert_key k l).
Proof.
  induction 1 as [| h t Hs IH Hall]; simpl.
  - constructor; constructor.
  - destruct (String.leb k h) eqn:E.
    + constructor; [now constructor |]. constructor; [exact E |].
      rewrite Forall_forall in *. intros x Hx.
      apply (string_leb_trans k h x E). now apply Hall.
    + constructor; [exact IH |].
      rewrite Forall_forall in *. intros x Hx.
      apply (Permutation_in _ (insert_key_perm k t)) in Hx.
      destruct Hx as [<- | Hx]; [| now apply Hall].
      destruct (String.leb_total k h) as [H | H]; [congruence | exact H].
Qed.

Lemma sort_keys_sorted (l : list string) :
  StronglySorted (fun a b => String.leb a b = true) (sort_keys l).
Proof.
  induction l as [| h t IH]; simpl; [constructor | now apply insert_key_sorted].
Qed.

Lemma filter_sorted {A : Type} (R : A -> A -> Prop) (f : A -> bool) (l : list A) :
  StronglySorted R l -> StronglySorted R (filter f l).
Proof.
  induction 1 as [| h t Hs IH Hall]; simpl; [constructor |].
  destruct (f h); [| exact IH]. constructor; [exact IH |].
  rewrite Forall_forall in *. intros x Hx. apply Hall.
  apply filter_In in Hx. tauto.
Qed.

Lemma sorted_distinct_strict (l : list string) :
  StronglySorted (fun a b => String.leb a b = true) l -> NoDup l ->
  StronglySorted (fun a b => String.ltb a b = true) l.
Proof.
  induction 1 as [| h t Hs IH Hall]; intros Hnd; [constructor |].
  inversion Hnd as [| ? ? Hnotin Hnd']; subst.
  constructor; [now apply IH |].
  rewrite Forall_forall in *. intros x Hx. specialize (Hall x Hx).
  unfold String.leb in Hall. unfold String.ltb.
  destruct (String.compare h x) eqn:E; try reflexivity; try discriminate.
  apply String.compare_eq_iff in E. subst x. contradiction.
Qed.

Lemma group_keys_increasing (key : NRow -> cell) (df : list NRow) :
  StronglySorted (fun a b => String.ltb a b = true) (group_keys key df).
Proof.
  apply sorted_distinct_strict; [apply sort_keys_sorted | apply group_keys_NoDup].
Qed.

(** X8: in each of the three grouped outputs the keys appear in strictly
    increasing order, the order in which the groups are visited. *)
Theorem X8_output_keys_increasing (df : list NRow) :
  let increasing := StronglySorted (fun a b => String.ltb a b = true) in
  increasing (map fst (compute_config_metrics df)) /\
  increasing (map fst (compute_cluster_metrics df)) /\
  increasing (map fst (compute_ats_patterns df)).
Proof.
  intros increasing. unfold increasing. split; [| split].
  - rewrite compute_config_metrics_unfold, classify_baselines_keys,
      config_loop_spec, survivors_keys.
    apply filter_sorted, group_keys_increasing.
  - rewrite compute_cluster_metrics_unfold, cluster_loop_spec, survivors_keys.
    apply filter_sorted, group_keys_increasing.
  - rewrite compute_ats_patterns_unfold, map_map. simpl. rewrite map_id.
    apply group_keys_increasing.
Qed.

(** ** Writing a document *)

Lemma tmp_path_differs (path : string) : (path ++ ".tmp")%string <> path.
Proof.
  intros E. apply (f_equal String.length) in E.
  rewrite string_app_length in E. simpl in E. lia.
Qed.



(** X10: saving twice under one path leaves the same files as saving the
    second document alone. *)
Theorem X10_save_json_last_wins (d1 d2 : json) (path : string) (fs : FS) :
  forall q, files (snd (save_json d2 path (snd (save_json d1 path fs)))) q =
            files (snd (save_json d2 path fs)) q.
Proof.
  intros q. pose proof (tmp_path_differs path) as Hne.
  destruct (save_json_frame d1 path fs) as (Hiff1 & Hother1 & Hdirs1).
  set (fs1 := snd (save_json d1 path fs)) in *.
  assert (Hacc : forall p, accessible fs1 p = accessible fs p)
    by (intros p; now apply accessible_dirs_eq).
  destruct (accessible fs (path ++ ".tmp")) eqn:Htmp.
  - destruct (accessible fs path) eqn:Hpath.
    + destruct (save_json_success d2 path fs Htmp Hpath) as (_ & B1 & B2 & B3 & _).
      assert (Htmp1 : accessible fs1 (path ++ ".tmp") = true) by now rewrite Hacc.
      assert (Hpath1 : accessible fs1 path = true) by now rewrite Hacc.
      destruct (save_json_success d2 path fs1 Htmp1 Hpath1) as (_ & A1 & A2 & A3 & _).
      destruct (String.eqb q path) eqn:E1.
      * apply String.eqb_eq in E1. subst q. now rewrite A1, B1.
      * apply String.eqb_neq in E1.
        destruct (String.eqb q (path ++ ".tmp")) eqn:E2.
        -- apply String.eqb_eq in E2. subst q. now rewrite A2, B2.
        -- apply String.eqb_neq in E2.
           rewrite (A3 q E1 E2), (B3 q E1 E2). now apply Hother1.
    + unfold save_json, and_then, write_file, replace.
      rewrite Hacc, Htmp. cbn [files]. rewrite !String.eqb_refl.
      rewrite !accessible_same_dirs, Hacc, Hpath. cbn [snd files].
      destruct (String.eqb q (path ++ ".tmp")) eqn:E2; [reflexivity |].
      apply String.eqb_neq in E2.
      destruct (String.eqb q path) eqn:E1.
      * apply String.eqb_eq in E1. subst q.
        unfold fs1, save_json, and_then, write_file, replace.
        rewrite Htmp. cbn [files]. rewrite String.eqb_refl.
        rewrite accessible_same_dirs, Hpath. cbn [snd files].
        assert (Hne' : path <> (path ++ ".tmp")%string) by congruence.
        apply String.eqb_neq in Hne'. now rewrite Hne'.
      * apply String.eqb_neq in E1. now apply Hother1.
  - assert (Hfs1 : fs1 = fs).
    { unfold fs1, save_json, and_then, write_file. now rewrite Htmp. }
    now rewrite Hfs1.
Qed.

Lemma and_then_ok (m k : FS -> result unit * FS) (fs : FS) :
  fst (m fs) = Ok tt -> (m >>> k) fs = k (snd (m fs)).
Proof.
  unfold and_then. destruct (m fs) as [[u | e] fs']; [reflexivity | discriminate].
Qed.


(** Saving a document named [n] under the prefix [pre]. *)
Lemma save_under (fs : FS) (pre n : string) (data : json) :
  accessible fs (pre ++ n) = true ->
  accessible fs (pre ++ (n ++ ".tmp")) = true ->
  let r := save_json data (pre ++ n) fs in
  fst r = Ok tt /\
  files (snd r) (pre ++ n)%string = Some data /\
  files (snd r) (pre ++ (n ++ ".tmp"))%string = None /\
  (forall q, q <> (pre ++ n)%string -> q <> (pre ++ (n ++ ".tmp"))%string ->
     files (snd r) q = files fs q) /\
  dirs (snd r) = dirs fs.
Proof.
  intros Hdoc Htmp. rewrite <- append_assoc in Htmp.
  pose proof (save_json_success data (pre ++ n) fs Htmp Hdoc) as H.
  rewrite append_assoc in H. exact H.
Qed.

(** ** Further properties of loading and of a run *)

Lemma stage_lookup_range (s : string) :
  (0 <= stage_lookup STAGE_SCORES s 0 <= 4)%Z.
Proof.
  unfold stage_lookup, STAGE_SCORES.
  repeat (destruct (String.eqb _ s); [lia |]). lia.
Qed.

Lemma nth_map_default {A B : Type} (P : B -> Prop) (f : A -> B) (l : list A)
    (d : B) (i : nat) :
  (forall a, P (f a)) -> P d -> P (nth i (map f l) d).
Proof.
  intros Hf Hd. destruct (Nat.lt_ge_cases i (List.length (map f l))) as [Hlt | Hge].
  - apply (nth_In _ d) in Hlt. apply in_map_iff in Hlt.
    destruct Hlt as (a & <- & _). apply Hf.
  - now rewrite nth_overflow.
Qed.

Section RunnerProperties.

Variable str_dtype : bool.
Variable today : date.
Variable fromisoformat : string -> option date.
Variable to_float : string -> option R.

(** X11: loading fails exactly when the table has no [applied_date] column
    and its [days_since_apply] column is absent or wholly null; the error
    is then the attribute error of line 110.  In every other case loading
    returns a table with one row per input row. *)
Theorem X11_load_tracker_outcome (raw : DataFrame) :
  let df := strip_columns raw in
  let no_dates :=
    df_get df "applied_date" = None /\
    (df_get df "days_since_apply" = None \/
     exists col, df_get df "days_since_apply" = Some col /\
                 forallb isnull col = true) in
  match load_tracker today fromisoformat to_float raw with
  | Err e => e = AttributeError /\ no_dates
  | Ok nf => ~ no_dates /\ List.length nf = List.length (rows raw)
  end.
Proof.
  intros df no_dates.
  destruct (load_tracker today fromisoformat to_float raw) as [nf | e] eqn:Hload.
  - split; [| now apply (load_tracker_length today fromisoformat to_float)].
    intros (Hdates & Hdays).
    unfold load_tracker, days_column, days_from_dates in Hload. fold df in Hload.
    rewrite Hdates in Hload.
    destruct Hdays as [Hd | (col & Hd & Hnull)]; rewrite Hd in Hload;
      [| rewrite Hnull in Hload]; discriminate.
  - unfold load_tracker, days_column, days_from_dates, bind in Hload.
    fold df in Hload. unfold no_dates.
    destruct (df_get df "days_since_apply") as [col |] eqn:Hd.
    + destruct (forallb isnull col) eqn:Hnull; [| discriminate].
      destruct (df_get df "applied_date") eqn:Hdates; [discriminate |].
      inversion Hload. split; [reflexivity |]. split; [reflexivity |].
      right. now exists col.
    + destruct (df_get df "applied_date") eqn:Hdates; [discriminate |].
      inversion Hload. split; [reflexivity |]. split; [reflexivity | now left].
Qed.

(** X12: every row of a loaded table is well formed: its weight lies in
    [0, 1], its stage score lies between 0 and 4, and its failure mode is
    one of the 8 fixed ones. *)
Theorem X12_loaded_rows_well_formed (raw : DataFrame) (nf : list NRow) :
  load_tracker today fromisoformat to_float raw = Ok nf ->
  Forall well_formed nf.
Proof.
  intros Hload. apply Forall_forall. intros r Hr.
  pose proof (load_tracker_failure_mode today fromisoformat to_float raw nf r
                Hload Hr) as Hfm.
  unfold load_tracker, bind in Hload.
  destruct (days_column today fromisoformat to_float (strip_columns raw));
    [| discriminate].
  inversion Hload; subst nf; clear Hload.
  unfold assemble in Hr. apply in_map_iff in Hr. destruct Hr as (i & <- & _).
  unfold well_formed. cbn [weight stage_score failure_mode] in *.
  split; [| split; [| exact Hfm]].
  - apply (nth_map_default (fun w => 0 <= w <= 1)); [apply row_weight_range | lra].
  - apply (nth_map_default (fun z => (0 <= z <= 4)%Z));
      [intros c0; apply stage_lookup_range | lia].
Qed.

(** X13: when the [days_since_apply] column has at least one value, the
    elapsed time of every row is read from that column alone: a blank or
    unreadable entry gives NaN and weight 0, and neither [applied_date] nor
    the run date changes the loaded table. *)
Theorem X13_days_column_takes_precedence (raw : DataFrame) (col : list cell) :
  df_get (strip_columns raw) "days_since_apply" = Some col ->
  forallb isnull col = false ->
  exists nf,
    load_tracker today fromisoformat to_float raw = Ok nf /\
    map days_since_apply nf = map (to_numeric to_float) col /\
    map weight nf = map (fun c => compute_weight (to_numeric to_float c)) col /\
    forall today' fromisoformat',
      load_tracker today' fromisoformat' to_float raw = Ok nf.
Proof.
  intros Hcol Hsome.
  assert (Hdays : forall t f, days_column t f to_float (strip_columns raw) =
                              Ok (map (to_numeric to_float) col)).
  { intros t f. unfold days_column. now rewrite Hcol, Hsome. }
  destruct (load_tracker today fromisoformat to_float raw) as [nf | e] eqn:Hload.
  - exists nf. split; [reflexivity |].
    destruct (load_tracker_weights today fromisoformat to_float raw nf Hload)
      as (days & Hd & Hdays' & Hw).
    rewrite Hdays in Hd. inversion Hd as [Heq]; clear Hd.
    rewrite <- Heq in Hdays', Hw. clear Heq.
    split; [exact Hdays' |]. split.
    + rewrite Hw, map_map. apply map_ext. intros c. unfold row_weight.
      destruct c as [| s]; simpl; [reflexivity |]. now destruct (to_float s).
    + intros t f. rewrite <- Hload. unfold load_tracker. now rewrite !Hdays.
  - exfalso. unfold load_tracker in Hload. rewrite Hdays in Hload. discriminate.
Qed.

(** X14: when the table has a [config_id] column, a row's configuration is
    the text of its cell, or [unknown] where the cell is blank; when it has
    none but has both variant columns, the configuration is the two
    variants joined by an underscore, or [unknown] where either is blank. *)
Theorem X14_config_id_fallbacks (raw : DataFrame) (nf : list NRow) :
  load_tracker today fromisoformat to_float raw = Ok nf ->
  let df := strip_columns raw in
  (forall col, df_get df "config_id" = Some col ->
     map config_id nf = map (fillna "unknown") col) /\
  (forall rv cv, df_get df "config_id" = None ->
     df_get df "resume_variant" = Some rv ->
     df_get df "cover_variant" = Some cv ->
     map config_id nf =
     zip_with (fun a b => match a, b with
                          | Str x, Str y => (x ++ "_" ++ y)%string
                          | _, _ => "unknown"%string
                          end) rv cv).
Proof.
  intros Hload df. unfold load_tracker, bind in Hload. fold df in Hload.
  destruct (days_column today fromisoformat to_float df) as [days |];
    [| discriminate].
  inversion Hload; subst nf; clear Hload. unfold assemble.
  rewrite map_map. cbn [config_id]. split.
  - intros col Hcol. rewrite Hcol.
    rewrite <- (df_get_length df "config_id" col Hcol).
    rewrite <- (length_map (fillna "unknown") col). apply map_nth_seq_id.
  - intros rv cv Hnone Hrv Hcv. rewrite Hnone, Hrv, Hcv.
    pose proof (df_get_length df _ rv Hrv) as Lrv.
    pose proof (df_get_length df _ cv Hcv) as Lcv.
    assert (Hzip : forall (l1 l2 : list cell),
              map (fillna "unknown")
                  (zip_with (fun a b => cell_add (cell_add a (Str "_")) b) l1 l2) =
              zip_with (fun a b => match a, b with
                                   | Str x, Str y => (x ++ "_" ++ y)%string
                                   | _, _ => "unknown"%string
                                   end) l1 l2).
    { induction l1 as [| a l1 IH]; intros [| b l2]; simpl; try reflexivity.
      rewrite IH. f_equal. destruct a as [| x], b as [| y]; simpl; try reflexivity.
      now rewrite append_assoc. }
    rewrite <- Hzip.
    assert (Hlen : List.length
                     (map (fillna "unknown")
                        (zip_with (fun a b => cell_add (cell_add a (Str "_")) b) rv cv))
                   = df_len df).
    { rewrite length_map. rewrite <- Lrv. rewrite <- Lcv in Lrv. clear -Lrv.
      revert cv Lrv. induction rv as [| a rv IH]; intros [| b cv] H; simpl in *;
        try reflexivity; try discriminate. f_equal. apply IH. lia. }
    rewrite <- Hlen. apply map_nth_seq_id.
Qed.

(** When the table loads, the market rollup returns, the output directory
    can be made and none of the eight paths is a directory, the run goes
    through. *)
Lemma run_phase9_succeeds (raw : DataFrame) (nf : list NRow) (mm : MarketMetrics)
    (output_dir : string) (fs : FS) :
  load_tracker today fromisoformat to_float raw = Ok nf ->
  compute_market_metrics str_dtype today nf = Ok mm ->
  fst (makedirs output_dir fs) = Ok tt ->
  (forall name, In name output_names ->
     isdir fs (path_join output_dir name) = false /\
     isdir fs (path_join output_dir name ++ ".tmp") = false) ->
  let r := run_phase9 str_dtype today fromisoformat to_float raw output_dir fs in
  fst r = Ok tt /\
  (files (snd r) (path_join output_dir "config_performance.json") =
     Some (dict_json config_json (compute_config_metrics nf)) /\
   files (snd r) (path_join output_dir "cluster_yield.json") =
     Some (dict_json cluster_json (compute_cluster_metrics nf)) /\
   files (snd r) (path_join output_dir "ats_outcome_patterns.json") =
     Some (dict_json freq_json (compute_ats_patterns nf)) /\
   files (snd r) (path_join output_dir "market_performance.json") =
     Some (market_json mm)) /\
  (forall name, In name output_names ->
     files (snd r) (path_join output_dir name ++ ".tmp")%string = None) /\
  (forall p,
     (forall name, In name output_names ->
        p <> path_join output_dir name /\
        p <> (path_join output_dir name ++ ".tmp")%string) ->
     files (snd r) p = files fs p) /\
  (forall d, dirs (snd r) d = dirs fs d || in_list d (dir_chain output_dir)).
Proof.
  intros Hload Hmm Hmk Hnodir r. unfold r, run_phase9. rewrite Hload, Hmm.
  destruct (makedirs_success output_dir fs Hmk) as (Hne & Hfiles1 & Hdirs1 & Hisdir1).
  rewrite (and_then_ok _ _ fs Hmk).
  set (fs1 := snd (makedirs output_dir fs)) in *.
  destruct (path_join_under output_dir Hne) as (pre & Hp & Hends & Hlen & Hall & Hstrip).
  assert (Hsame : forall a b : string, (pre ++ a)%string = (pre ++ b)%string -> a = b)
    by (intros a b; apply append_inj_l).
  assert (Hacc : forall n, has_no_slash n = true -> n <> EmptyString ->
                   isdir fs (pre ++ n) = false -> accessible fs1 (pre ++ n) = true).
  { intros n Hn Hnn Hd. apply (accessible_under fs1 output_dir pre n); auto.
    unfold fs1. now rewrite isdir_below_after_makedirs. }
  assert (Hdoc : forall name, In name output_names ->
                   accessible fs1 (pre ++ name) = true /\
                   accessible fs1 (pre ++ (name ++ ".tmp")) = true).
  { intros name Hin. destruct (Hnodir name Hin) as (D1 & D2).
    rewrite Hp in D1, D2. rewrite append_assoc in D2. simpl in Hin.
    destruct Hin as [<- | [<- | [<- | [<- | []]]]];
      (split; (apply Hacc; [reflexivity | discriminate | assumption])). }
  rewrite !Hp.
  destruct (Hdoc "config_performance.json"%string (or_introl eq_refl)) as (A1 & T1).
  destruct (Hdoc "cluster_yield.json"%string (or_intror (or_introl eq_refl)))
    as (A2 & T2).
  destruct (Hdoc "ats_outcome_patterns.json"%string
              (or_intror (or_intror (or_introl eq_refl)))) as (A3 & T3).
  destruct (Hdoc "market_performance.json"%string
              (or_intror (or_intror (or_intror (or_introl eq_refl))))) as (A4 & T4).
  (* first document *)
  destruct (save_under fs1 pre "config_performance.json"
              (dict_json config_json (compute_config_metrics nf)) A1 T1)
    as (K1 & W1 & N1 & O1 & E1).
  rewrite (and_then_ok _ _ fs1 K1).
  set (fs2 := snd (save_json _ (pre ++ "config_performance.json") fs1)) in *.
  (* second document *)
  rewrite <- (accessible_dirs_eq fs1 fs2 _ E1) in A2.
  rewrite <- (accessible_dirs_eq fs1 fs2 _ E1) in T2.
  rewrite <- (accessible_dirs_eq fs1 fs2 _ E1) in A3.
  rewrite <- (accessible_dirs_eq fs1 fs2 _ E1) in T3.
  rewrite <- (accessible_dirs_eq fs1 fs2 _ E1) in A4.
  rewrite <- (accessible_dirs_eq fs1 fs2 _ E1) in T4.
  destruct (save_under fs2 pre "cluster_yield.json"
              (dict_json cluster_json (compute_cluster_metrics nf)) A2 T2)
    as (K2 & W2 & N2 & O2 & E2).
  rewrite (and_then_ok _ _ fs2 K2).
  set (fs3 := snd (save_json _ (pre ++ "cluster_yield.json") fs2)) in *.
  (* third document *)
  rewrite <- (accessible_dirs_eq fs2 fs3 _ E2) in A3.
  rewrite <- (accessible_dirs_eq fs2 fs3 _ E2) in T3.
  rewrite <- (accessible_dirs_eq fs2 fs3 _ E2) in A4.
  rewrite <- (accessible_dirs_eq fs2 fs3 _ E2) in T4.
  destruct (save_under fs3 pre "ats_outcome_patterns.json"
              (dict_json freq_json (compute_ats_patterns nf)) A3 T3)
    as (K3 & W3 & N3 & O3 & E3).
  rewrite (and_then_ok _ _ fs3 K3).
  set (fs4 := snd (save_json _ (pre ++ "ats_outcome_patterns.json") fs3)) in *.
  (* fourth document *)
  rewrite <- (accessible_dirs_eq fs3 fs4 _ E3) in A4.
  rewrite <- (accessible_dirs_eq fs3 fs4 _ E3) in T4.
  destruct (save_under fs4 pre "market_performance.json" (market_json mm) A4 T4)
    as (K4 & W4 & N4 & O4 & E4).
  set (fs5 := snd (save_json _ (pre ++ "market_performance.json") fs4)) in *.
  assert (Hdiff : forall a b : string, a <> b -> (pre ++ a)%string <> (pre ++ b)%string)
    by (intros a b Hab E; apply Hab, Hsame, E).
  split; [exact K4 |]. split; [| split; [| split]].
  - repeat split.
    + rewrite O4, O3, O2 by (apply Hdiff; discriminate). exact W1.
    + rewrite O4, O3 by (apply Hdiff; discriminate). exact W2.
    + rewrite O4 by (apply Hdiff; discriminate). exact W3.
    + exact W4.
  - intros name Hin. rewrite Hp, append_assoc. simpl in Hin.
    destruct Hin as [<- | [<- | [<- | [<- | []]]]].
    + rewrite O4, O3, O2 by (apply Hdiff; discriminate). exact N1.
    + rewrite O4, O3 by (apply Hdiff; discriminate). exact N2.
    + rewrite O4 by (apply Hdiff; discriminate). exact N3.
    + exact N4.
  - intros p Hp'.
    assert (Q : forall name, In name output_names ->
                  p <> (pre ++ name)%string /\ p <> (pre ++ (name ++ ".tmp"))%string).
    { intros name Hin. destruct (Hp' name Hin) as (Q1 & Q2).
      rewrite Hp in Q1, Q2. rewrite append_assoc in Q2. now split. }
    destruct (Q "config_performance.json"%string (or_introl eq_refl)).
    destruct (Q "cluster_yield.json"%string (or_intror (or_introl eq_refl))).
    destruct (Q "ats_outcome_patterns.json"%string
                (or_intror (or_intror (or_introl eq_refl)))).
    destruct (Q "market_performance.json"%string
                (or_intror (or_intror (or_intror (or_introl eq_refl))))).
    rewrite O4, O3, O2, O1 by assumption. now rewrite Hfiles1.
  - intros d. rewrite E4, E3, E2, E1. now rewrite Hdirs1.
Qed.


End RunnerProperties.

(** With object columns, a table with a header and no data row gives a
    run that returns and writes three empty objects and the zeroed market
    document, when the output directory can be made and none of the eight
    paths is a directory. *)
Lemma empty_table_run_object_columns (today : date)
    (fromisoformat : string -> option date) (to_float : string -> option R)
    (raw : DataFrame) (output_dir : string) (fs : FS) :
  rows raw = [] ->
  has_column (strip_columns raw) "applied_date" = true ->
  fst (makedirs output_dir fs) = Ok tt ->
  (forall name, In name output_names ->
     isdir fs (path_join output_dir name) = false /\
     isdir fs (path_join output_dir name ++ ".tmp") = false) ->
  let r := run_phase9 false today fromisoformat to_float raw output_dir fs in
  fst r = Ok tt /\
  files (snd r) (path_join output_dir "config_performance.json") = Some (JObj []) /\
  files (snd r) (path_join output_dir "cluster_yield.json") = Some (JObj []) /\
  files (snd r) (path_join output_dir "ats_outcome_patterns.json") = Some (JObj []) /\
  files (snd r) (path_join output_dir "market_performance.json") =
    Some (JObj [ ("overall_recruiter_screen_rate", JFloat 0);
                 ("overall_funnel_depth", JFloat 0);
                 ("overall_cluster_yield", JFloat 0);
                 ("last_updated", JStr (isoformat today)) ]).
Proof.
  intros Hrows Hcol Hmk Hnodir r.
  pose proof (load_tracker_no_rows today fromisoformat to_float raw Hrows Hcol)
    as Hload.
  pose proof (compute_market_metrics_no_rows false today) as Hmm. cbv iota in Hmm.
  destruct (run_phase9_succeeds false today fromisoformat to_float raw [] _ output_dir fs
              Hload Hmm Hmk Hnodir)
    as (Hok & (D1 & D2 & D3 & D4) & _).
  fold r in Hok, D1, D2, D3, D4. now repeat split.
Qed.


(** ** The market totals and the configuration groups *)

Lemma partition_sum (key : NRow -> string) (f : NRow -> R) (ks : list string)
    (df : list NRow) :
  NoDup ks -> (forall r, In r df -> In (key r) ks) ->
  sum (map (fun k => sum (map f (filter (fun r => String.eqb (key r) k) df))) ks)
  = sum (map f df).
Proof.
  intros Hnd. induction df as [| r df IH]; intros Hall.
  - simpl. clear. induction ks as [| k ks IHk]; simpl; [reflexivity |].
    rewrite IHk. lra.
  - rewrite (map_ext _ (fun k => (if String.eqb (key r) k then f r else 0)
                                 + sum (map f (filter (fun r0 => String.eqb (key r0) k)
                                                 df)))).
    + rewrite sum_map_plus, sum_indicator, IH.
      * reflexivity.
      * intros r' Hr'. apply Hall. now right.
      * exact Hnd.
      * apply Hall. now left.
    + intros k. simpl. destruct (String.eqb (key r) k); simpl; lra.
Qed.

Lemma filter_comm {A : Type} (f g : A -> bool) (l : list A) :
  filter f (filter g l) = filter g (filter f l).
Proof.
  induction l as [| x l IH]; simpl; [reflexivity |].
  destruct (f x) eqn:Ef, (g x) eqn:Eg; simpl; rewrite ?Ef, ?Eg, IH; reflexivity.
Qed.

(** X16: the table's total weight, recruiter weight and stage-weighted sum
    are the sums of those of its configuration groups: the market-wide
    numbers are made of exactly the rows the configuration rollup sees. *)
Theorem X16_market_sums_over_config_groups (df : list NRow) :
  let by_config := fun r => Str (config_id r) in
  let over_groups := fun (f : list NRow -> R) =>
    sum (map (fun k => f (group_of by_config df k)) (group_keys by_config df)) in
  total_weight df = over_groups total_weight /\
  recruiter_weight df = over_groups recruiter_weight /\
  stage_weight_sum df = over_groups stage_weight_sum.
Proof.
  intros by_config over_groups. unfold over_groups.
  assert (Hkeys : forall r, In r df -> In (config_id r) (group_keys by_config df)).
  { intros r Hr. apply group_keys_In. now exists r. }
  pose proof (group_keys_NoDup by_config df) as Hnd.
  split; [| split].
  - unfold total_weight, group_of, by_config, cell_eqb.
    symmetry. apply (partition_sum config_id weight); assumption.
  - unfold recruiter_weight. symmetry.
    rewrite <- (partition_sum config_id weight (group_keys by_config df)
                  (filter (fun r => (1 <=? stage_score r)%Z) df) Hnd).
    + f_equal. apply map_ext. intros k. unfold group_of, by_config, cell_eqb.
      f_equal. f_equal. apply filter_comm.
    + intros r Hr. apply Hkeys. apply filter_In in Hr. tauto.
  - unfold stage_weight_sum, group_of, by_config, cell_eqb. symmetry.
    apply (partition_sum config_id (fun r => IZR (stage_score r) * weight r));
      assumption.
Qed.

Lemma filter_weight_le (f : NRow -> bool) (df : list NRow) :
  Forall well_formed df ->
  total_weight (filter f df) <= total_weight df.
Proof.
  unfold total_weight. induction 1 as [| r df (Hw & _) _ IH]; simpl; [lra |].
  destruct (f r); simpl; lra.
Qed.

Lemma sum_nonpositive {A : Type} (f : A -> R) (l : list A) :
  (forall x, In x l -> f x <= 0) -> sum (map f l) <= 0.
Proof.
  induction l as [| x l IH]; intros H; simpl; [lra |].
  assert (f x <= 0) by (apply H; now left).
  assert (sum (map f l) <= 0) by (apply IH; intros y Hy; apply H; now right).
  lra.
Qed.

Lemma no_survivors {V : Type} (entry : list NRow -> V) (key : NRow -> cell)
    (df : list NRow) :
  (forall k, In k (group_keys key df) -> total_weight (group_of key df k) <= 0) ->
  flat_map (fun g => if Rle_dec (total_weight (snd g)) 0 then []
                     else [(fst g, entry (snd g))]) (groupby key df) = [].
Proof.
  unfold groupby. induction (group_keys key df) as [| k ks IH]; intros Hall;
    simpl; [reflexivity |].
  destruct (Rle_dec (total_weight (group_of key df k)) 0) as [_ | Hn].
  - apply IH. intros k' Hk'. apply Hall. now right.
  - exfalso. apply Hn, Hall. now left.
Qed.

(** X17: over well-formed rows, the configuration rollup is empty exactly
    when the table's total weight is [<= 0]; the cluster rollup is then
    empty too. *)
Theorem X17_empty_rollup_iff_no_weight (df : list NRow) :
  Forall well_formed df ->
  (compute_config_metrics df = [] <-> total_weight df <= 0) /\
  (total_weight df <= 0 -> compute_cluster_metrics df = []).
Proof.
  intros Hwf. set (by_config := fun r => Str (config_id r)).
  assert (Hgroup : forall key k, total_weight df <= 0 ->
                     total_weight (group_of key df k) <= 0).
  { intros key k Hle. unfold group_of.
    pose proof (filter_weight_le (fun r => cell_eqb (key r) (Str k)) df Hwf). lra. }
  split; [split |].
  - intros Hempty.
    assert (Hall : forall k, In k (group_keys by_config df) ->
                     total_weight (group_of by_config df k) <= 0).
    { intros k Hk.
      destruct (Rle_dec (total_weight (group_of by_config df k)) 0) as [H | H];
        [exact H |].
      exfalso. assert (Hpos : 0 < total_weight (group_of by_config df k)) by lra.
      pose proof (config_group_entry df k Hk Hpos) as Hin.
      rewrite Hempty in Hin. destruct Hin. }
    assert (Hsum : total_weight df =
                   sum (map (fun k => total_weight (group_of by_config df k))
                          (group_keys by_config df))).
    { unfold total_weight, group_of, by_config, cell_eqb. symmetry.
      apply (partition_sum config_id weight);
        [apply group_keys_NoDup |].
      intros r Hr. apply group_keys_In. now exists r. }
    rewrite Hsum. now apply sum_nonpositive.
  - intros Hle. rewrite compute_config_metrics_unfold, config_loop_spec.
    fold by_config. rewrite no_survivors; [reflexivity |].
    intros k _. now apply Hgroup.
  - intros Hle. rewrite compute_cluster_metrics_unfold, cluster_loop_spec.
    apply no_survivors. intros k _. now apply Hgroup.
Qed.

(** ** The further properties at concrete inputs *)

Lemma stale_row_well_formed : Forall well_formed [stale_row].
Proof.
  constructor; [| constructor]. unfold well_formed. simpl.
  split; [lra |]. split; [lia | apply unknown_is_a_mode].
Qed.

Lemma X12_loaded_rows_well_formed_witness :
  exists nf,
    load_tracker run_date iso_date int_literal good_and_bad_date = Ok nf /\
    Forall well_formed nf.
Proof.
  eexists. split; [apply load_good_and_bad_date |].
  exact (X12_loaded_rows_well_formed run_date iso_date int_literal
           good_and_bad_date _ load_good_and_bad_date).
Defined.

Lemma X13_days_column_takes_precedence_witness :
  df_get (strip_columns with_days_column) "days_since_apply" = Some [Str "30"; NA] /\
  forallb isnull [Str "30"; NA] = false /\
  exists nf,
    load_tracker run_date iso_date int_literal with_days_column = Ok nf /\
    map days_since_apply nf = [Num 30; NaN] /\
    map weight nf = [compute_weight (Num 30); 0].
Proof.
  split; [reflexivity |]. split; [reflexivity |].
  destruct (X13_days_column_takes_precedence run_date iso_date int_literal
              with_days_column [Str "30"; NA] eq_refl eq_refl)
    as (nf & Hload & Hdays & Hw & _).
  exists nf. split; [exact Hload |]. split; [exact Hdays | exact Hw].
Defined.

Lemma load_no_config_column :
  load_tracker run_date iso_date int_literal no_config_column =
  Ok [ {| days_since_apply := Num 0; weight := row_weight (Num 0);
          stage_score := 4%Z; failure_mode := "UNKNOWN"; config_id := "r1_c1";
          cluster := Str "UNKNOWN"; ats_system := "UNKNOWN" |};
       {| days_since_apply := Num 0; weight := row_weight (Num 0);
          stage_score := 4%Z; failure_mode := "UNKNOWN"; config_id := "unknown";
          cluster := Str "UNKNOWN"; ats_system := "UNKNOWN" |} ].
Proof. reflexivity. Qed.

Lemma X14_config_id_fallbacks_witness :
  (exists nf,
     load_tracker run_date iso_date int_literal one_bad_date = Ok nf /\
     map config_id nf = ["A"%string]) /\
  (exists nf,
     load_tracker run_date iso_date int_literal no_config_column = Ok nf /\
     map config_id nf = ["r1_c1"%string; "unknown"%string]).
Proof.
  split.
  - eexists. split; [apply load_one_bad_date |].
    destruct (X14_config_id_fallbacks run_date iso_date int_literal one_bad_date _
                load_one_bad_date) as (Hcol & _).
    exact (Hcol [Str "A"] eq_refl).
  - eexists. split; [apply load_no_config_column |].
    destruct (X14_config_id_fallbacks run_date iso_date int_literal
                no_config_column _ load_no_config_column) as (_ & Hsyn).
    exact (Hsyn [Str "r1"; NA] [Str "c1"; Str "c1"] eq_refl eq_refl eq_refl).
Defined.



Lemma X17_empty_rollup_iff_no_weight_witness :
  Forall well_formed [stale_row] /\ total_weight [stale_row] <= 0 /\
  compute_config_metrics [stale_row] = [] /\
  compute_cluster_metrics [stale_row] = [].
Proof.
  assert (Hle : total_weight [stale_row] <= 0) by (unfold total_weight; simpl; lra).
  destruct (X17_empty_rollup_iff_no_weight [stale_row] stale_row_well_formed)
    as (Hiff & Hcl).
  split; [exact stale_row_well_formed |]. split; [exact Hle |].
  split; [now apply Hiff | now apply Hcl].
Defined.

Lemma zero_weight_row_contributes_nothing_witness :
  weight stale_row = 0 /\
  total_weight [sample_row; stale_row] = total_weight [sample_row] /\
  stage_weight_sum [sample_row; stale_row] = stage_weight_sum [sample_row].
Proof.
  destruct (zero_weight_row_contributes_nothing stale_row [sample_row] [] eq_refl)
    as (Htw & _ & Hsw & _).
  split; [reflexivity |]. split; [exact Htw | exact Hsw].
Defined.

Lemma load_blank_days_column :
  load_tracker run_date iso_date int_literal blank_days_column =
  Ok [ {| days_since_apply := Num 0; weight := row_weight (Num 0);
          stage_score := 4%Z; failure_mode := "UNKNOWN"; config_id := "A";
          cluster := Str "UNKNOWN"; ats_system := "UNKNOWN" |};
       {| days_since_apply := NaN; weight := row_weight NaN;
          stage_score := 0%Z; failure_mode := "UNKNOWN"; config_id := "A";
          cluster := Str "UNKNOWN"; ats_system := "UNKNOWN" |} ].
Proof. reflexivity. Qed.

Lemma unreadable_date_among_readable_witness :
  (exists r,
     nth_error [ {| days_since_apply := Num 0; weight := row_weight (Num 0);
                    stage_score := 1%Z; failure_mode := "UNKNOWN"; config_id := "A";
                    cluster := Str "backend"; ats_system := "greenhouse" |};
                 {| days_since_apply := NaN; weight := row_weight NaN;
                    stage_score := 0%Z; failure_mode := "UNKNOWN"; config_id := "B";
                    cluster := Str "backend"; ats_system := "lever" |} ] 1 = Some r /\
     days_since_apply r = NaN /\ weight r = 0) /\
  (df_get (strip_columns blank_days_column) "days_since_apply" = Some [NA; NA] /\
   exists nf r,
     load_tracker run_date iso_date int_literal blank_days_column = Ok nf /\
     nth_error nf 1 = Some r /\ days_since_apply r = NaN /\ weight r = 0).
Proof.
  split.
  - eexists. split; [reflexivity |].
    exact (unreadable_date_among_readable run_date iso_date int_literal
             good_and_bad_date _ [Str "2024-09-15"; Str "not-a-date"] 1 _
             (or_introl eq_refl) eq_refl eq_refl load_good_and_bad_date
             eq_refl eq_refl).
  - split; [reflexivity |]. eexists. eexists.
    split; [apply load_blank_days_column |]. split; [reflexivity |].
    exact (unreadable_date_among_readable run_date iso_date int_literal
             blank_days_column _ [Str "2024-09-15"; Str "soon"] 1 _
             (or_intror (ex_intro _ [NA; NA] (conj eq_refl eq_refl)))
             eq_refl eq_refl load_blank_days_column eq_refl eq_refl).
Defined.

Lemma cluster_default_when_column_absent_witness :
  has_column (strip_columns no_config_column) "cluster" = false /\
  exists nf,
    load_tracker run_date iso_date int_literal no_config_column = Ok nf /\
    forall r, In r nf -> cluster r = Str "UNKNOWN".
Proof.
  split; [reflexivity |]. eexists. split; [apply load_no_config_column |].
  intros r Hr.
  exact (cluster_default_when_column_absent run_date iso_date int_literal
           no_config_column _ r eq_refl load_no_config_column Hr).
Defined.

(** ** Dates and weights *)

(** X21: for a readable date the elapsed time is the run day number minus
    the date's; a date on or after the run date has weight exactly 1, and
    an earlier one the decayed weight of its age in days. *)
Theorem X21_weight_of_a_dated_row (today : date)
    (fromisoformat : string -> option date) (c : cell) (d : date) :
  fromisoformat (py_str c) = Some d ->
  let n := (toordinal today - toordinal d)%Z in
  compute_days_since today fromisoformat c = Some n /\
  ((toordinal today <= toordinal d)%Z -> row_weight (Num (IZR n)) = 1) /\
  ((toordinal d <= toordinal today)%Z ->
   row_weight (Num (IZR n)) = exp (- (ln 2 / 60) * IZR n)).
Proof.
  intros Hparse n. unfold compute_days_since. rewrite Hparse.
  split; [reflexivity |]. unfold row_weight. split.
  - intros Hle. assert (Hn : (n <= 0)%Z) by (unfold n; lia).
    apply IZR_le in Hn. destruct Hn as [Hlt | Heq].
    + now apply compute_weight_neg.
    + rewrite Heq. rewrite compute_weight_nonneg by lra.
      rewrite Rmult_0_r. apply exp_0.
  - intros Hle. assert (Hn : (0 <= n)%Z) by (unfold n; lia).
    apply IZR_le in Hn. now apply compute_weight_nonneg.
Qed.

Lemma X21_weight_of_a_dated_row_witness :
  iso_date (py_str (Str "2024-07-17")) =
    Some {| year := 2024; month := 7; day := 17 |} /\
  compute_days_since run_date iso_date (Str "2024-07-17") = Some 60%Z /\
  row_weight (Num 60) = exp (- (ln 2 / 60) * 60).
Proof.
  split; [reflexivity |].
  destruct (X21_weight_of_a_dated_row run_date iso_date (Str "2024-07-17")
              {| year := 2024; month := 7; day := 17 |} eq_refl)
    as (Hdays & _ & Hpast).
  split; [exact Hdays |]. apply Hpast. vm_compute. discriminate.
Defined.
